(** * doin-optimizer: the optimization runner

    A shallow embedding of [src/doin_optimizer/runner.py] and of the two
    plugins of [tests/test_runner.py], followed by the properties of the
    runner core: improvement detection, the announcement sent to the
    node, the step loop and its bound, and the handling of failures.

    Conventions.
    - A Python [float] is an IEEE 754 binary64 value, modelled by the
      standard library's [spec_float] at precision 53 and maximal
      exponent 1024 (module [F64]).
    - A [dict[str, Any]] is a [gmap string pyval].
    - The runner object is a record; every method takes the record and
      the history of observable events and returns the new record and the
      extended history (the methods mutate [self] and perform I/O).
    - What the runner cannot decide by itself (the replies of the node,
      the identifier a new [Optimae] receives, an external call of
      [stop()]) is read from an [Environment], a function of the history
      so far. *)

From Stdlib Require Import ZArith List Bool Lia.
From Stdlib Require Import Floats.SpecFloat.
From stdpp Require Import base option gmap strings pretty.

Import ListNotations.
Local Open Scope string_scope.
Local Open Scope Z_scope.
Local Open Scope list_scope.

(* ===================================================================== *)
(** ** Python values *)
(* ===================================================================== *)

(** Python [float]: binary64. *)
Module F64.

Definition prec : Z := 53.
Definition emax : Z := 1024.

Definition t : Type := spec_float.

Definition zero : t := S754_zero false.
Definition nan : t := S754_nan.

  (** [float(z)] for a Python int. *)
Definition of_int (z : Z) : t := binary_normalize prec emax z 0 false.

Definition add (x y : t) : t := SFadd prec emax x y.
Definition sub (x y : t) : t := SFsub prec emax x y.
Definition mul (x y : t) : t := SFmul prec emax x y.
Definition abs (x : t) : t := SFabs x.

  (** The four order comparisons of IEEE 754; each one is false as soon
      as an operand is NaN. *)
Definition lt (x y : t) : bool := SFltb x y.
Definition le (x y : t) : bool := SFleb x y.
Definition gt (x y : t) : bool :=
    match SFcompare x y with Some Gt => true | _ => false end.
Definition ge (x y : t) : bool :=
    match SFcompare x y with Some Gt | Some Eq => true | _ => false end.

Definition is_nan (x : t) : bool :=
    match x with S754_nan => true | _ => false end.

Definition is_zero (x : t) : bool :=
    match x with S754_zero _ => true | _ => false end.

  (** Literals of the sources, as mantissa and exponent. *)
Definition lit_0_5 : t := S754_finite false 4503599627370496 (-53).
Definition lit_0_05 : t := S754_finite false 7205759403792794 (-57).
Definition lit_0_1 : t := S754_finite false 7205759403792794 (-56).
Definition lit_0_55 : t := S754_finite false 4953959590107546 (-53).
Definition lit_0_60 : t := S754_finite false 5404319552844595 (-53).
Definition lit_1_0 : t := S754_finite false 4503599627370496 (-52).
Definition lit_30_0 : t := S754_finite false 8444249301319680 (-48).

End F64.

(** The values a [dict[str, Any]] of this program holds. *)
Inductive pyval : Type :=
| PyNone
| PyBool (b : bool)
| PyInt (z : Z)
| PyFloat (f : F64.t)
| PyStr (s : string).

(** Truth value of an object, as [if x] and [x and y] test it. *)
Definition truthy (v : pyval) : bool :=
  match v with
  | PyNone => false
  | PyBool b => b
  | PyInt z => negb (z =? 0)
  | PyFloat f => negb (F64.is_zero f)
  | PyStr s => negb (String.eqb s "")
  end.

(** [d.get(key, default)]. *)
Definition dict_get (d : gmap string pyval) (key : string) (dflt : pyval) : pyval :=
  default dflt (d !! key).

(** Exceptions that reach a caller of the runner. *)
Inductive exception : Type :=
| RuntimeError (msg : string)
| AssertionError
| PluginError (msg : string).

Inductive result (A : Type) : Type :=
| Ok (a : A)
| Raise (e : exception).
Arguments Ok {A} a.
Arguments Raise {A} e.

(* ===================================================================== *)
(** ** Data model *)
(* ===================================================================== *)

(** [OptimizerConfig] (a dataclass). *)
Module OptimizerConfig.
Record t : Type := mk {
    domain_id : string;
    plugin_name : string;
    plugin_config : gmap string pyval;
    node_endpoint : string;
    optimization_interval : F64.t;
    max_steps : option Z;
  }.

  (** The constructor with its defaults: empty plugin configuration,
      [localhost:8470], one second, no bound. *)
Definition default (domain plugin : string) : t :=
    mk domain plugin ∅ "localhost:8470" F64.lit_1_0 None.
End OptimizerConfig.

(** [doin_core.crypto.identity.PeerIdentity], as far as the runner reads
    it: the peer identifier. *)
Record PeerIdentity : Type := { peer_id : string }.

(** Modelled from the spec: [doin_core.models.optimae.Optimae], whose
    class is not part of this repository's sources: domain id, optimizer
    (peer) id, parameters, reported performance, performance increment,
    plus a unique identifier assigned at creation. *)
Module Optimae.
Record t : Type := mk {
    id : string;
    domain_id : string;
    optimizer_id : string;
    parameters : gmap string pyval;
    reported_performance : F64.t;
    performance_increment : F64.t;
  }.
End Optimae.

(** Modelled from the spec: [OptimaeAnnouncement], the payload of the
    announcement message. *)
Module OptimaeAnnouncement.
Record t : Type := mk {
    domain_id : string;
    optimae_id : string;
    parameters : gmap string pyval;
    reported_performance : F64.t;
    previous_best_performance : option F64.t;
  }.
End OptimaeAnnouncement.

Inductive MessageType : Type := OPTIMAE_ANNOUNCEMENT.

(** Modelled from the spec: the wire envelope [Message]. The payload is
    kept as the announcement record (the source passes it through JSON). *)
Module Message.
Record t : Type := mk {
    msg_type : MessageType;
    sender_id : string;
    payload : OptimaeAnnouncement.t;
  }.
End Message.

(** An [aiohttp.ClientSession]: all the runner observes of it is whether
    it has been closed. *)
Record ClientSession : Type := { closed : bool }.

(** What a call of [session.post] ends in: the response it hands to the
    [async with] block, of which the runner reads the status (the last
    response, when aiohttp followed redirects on the way), or an
    exception (refused connection, timeout, closed session). *)
Inductive HttpOutcome : Type :=
| Response (status : Z)
| TransportFault.

Inductive level : Type := DEBUG | INFO | WARNING | ERROR.

(** Observable events, oldest first in a history. A log record keeps the
    format string and its arguments, as [logging] does. [Post] is one
    call of [session.post] by the runner, with what the call ended in;
    the requests aiohttp puts on the wire for it are not events. *)
Inductive event : Type :=
| Log (lv : level) (fmt : string) (args : list pyval)
| SessionOpened (timeout_total : F64.t)
| SessionClosed
| Post (url : string) (body : Message.t) (reply : HttpOutcome)
| Sleep (seconds : F64.t).

Definition is_post (e : event) : bool :=
  match e with Post _ _ _ => true | _ => false end.

Definition is_log (e : event) : bool :=
  match e with Log _ _ _ => true | _ => false end.

(** The bodies the runner passed to [session.post], in order. *)
Definition posted (h : list event) : list Message.t :=
  omap (fun e => match e with Post _ body _ => Some body | _ => None end) h.

(** What [plugin.optimize(...)] ends in: a candidate, or one of the two
    exceptions that [_optimization_step] tells apart
    ([NoImprovementError], any other [Exception]). *)
Inductive OptimizeOutcome : Type :=
| Returned (new_params : gmap string pyval) (new_performance : F64.t)
| RaisedNoImprovementError
| RaisedException.

(** The interface [doin_core.plugins.base.OptimizationPlugin]. A plugin
    object of class [P] is its own state; [optimize] may change it.
    [get_domain_metadata] is taken at its annotation: it returns its
    dictionary. *)
Class OptimizationPlugin (P : Type) : Type := {
  configure : P -> gmap string pyval -> result P;
  optimize : P -> option (gmap string pyval) -> option F64.t -> P * OptimizeOutcome;
  get_domain_metadata : P -> gmap string pyval;
}.

(** The surroundings of a runner. *)
Record Environment (P : Type) : Type := {
  (** [load_optimization_plugin(name)()]: a new instance of the class
      registered under the name. *)
  load_optimization_plugin : string -> result P;
  (** [PeerIdentity.generate()]. *)
  generate_identity : PeerIdentity;
  (** The identifier given to the next [Optimae]. *)
  new_optimae_id : list event -> string;
  (** What a call of [session.post] on an open session ends in. *)
  node_reply : list event -> string -> Message.t -> HttpOutcome;
  (** Whether [stop()] is called from outside during the iteration that
      ends at this history (the CLI binds it to SIGINT and SIGTERM). *)
  stop_requested : list event -> bool;
}.
Arguments load_optimization_plugin {P} _ _.
Arguments generate_identity {P} _.
Arguments new_optimae_id {P} _ _.
Arguments node_reply {P} _ _ _ _.
Arguments stop_requested {P} _ _.

(** [OptimizationRunner]: the attributes set by [__init__]. *)
Record OptimizationRunner (P : Type) : Type := mkRunner {
  config : OptimizerConfig.t;
  identity : PeerIdentity;
  _plugin : option P;
  _session : option ClientSession;
  _running : bool;
  _steps_completed : Z;
  _improvements_found : Z;
  _current_best_params : option (gmap string pyval);
  _current_best_performance : option F64.t;
}.
Arguments mkRunner {P}.
Arguments config {P} _.
Arguments identity {P} _.
Arguments _plugin {P} _.
Arguments _session {P} _.
Arguments _running {P} _.
Arguments _steps_completed {P} _.
Arguments _improvements_found {P} _.
Arguments _current_best_params {P} _.
Arguments _current_best_performance {P} _.

(* ===================================================================== *)
(** ** The runner *)
(* ===================================================================== *)

Section Runner.

Context {P : Type} `{OptimizationPlugin P} (env : Environment P).

Implicit Types (self : OptimizationRunner P) (h : list event).

(** Attribute assignments. *)
Definition set__plugin self (v : option P) : OptimizationRunner P :=
  mkRunner (config self) (identity self) v (_session self) (_running self)
    (_steps_completed self) (_improvements_found self)
    (_current_best_params self) (_current_best_performance self).

Definition set__session self (v : option ClientSession) : OptimizationRunner P :=
  mkRunner (config self) (identity self) (_plugin self) v (_running self)
    (_steps_completed self) (_improvements_found self)
    (_current_best_params self) (_current_best_performance self).

Definition set__running self (v : bool) : OptimizationRunner P :=
  mkRunner (config self) (identity self) (_plugin self) (_session self) v
    (_steps_completed self) (_improvements_found self)
    (_current_best_params self) (_current_best_performance self).

Definition set__steps_completed self (v : Z) : OptimizationRunner P :=
  mkRunner (config self) (identity self) (_plugin self) (_session self)
    (_running self) v (_improvements_found self)
    (_current_best_params self) (_current_best_performance self).

Definition set__improvements_found self (v : Z) : OptimizationRunner P :=
  mkRunner (config self) (identity self) (_plugin self) (_session self)
    (_running self) (_steps_completed self) v
    (_current_best_params self) (_current_best_performance self).

Definition set__current_best_params self (v : option (gmap string pyval))
  : OptimizationRunner P :=
  mkRunner (config self) (identity self) (_plugin self) (_session self)
    (_running self) (_steps_completed self) (_improvements_found self)
    v (_current_best_performance self).

Definition set__current_best_performance self (v : option F64.t)
  : OptimizationRunner P :=
  mkRunner (config self) (identity self) (_plugin self) (_session self)
    (_running self) (_steps_completed self) (_improvements_found self)
    (_current_best_params self) v.

(** [OptimizationRunner.__init__(config, identity=None)]. *)
Definition __init__ (cfg : OptimizerConfig.t) (ident : option PeerIdentity)
  : OptimizationRunner P :=
  {| config := cfg;
     identity := default (generate_identity env) ident;
     _plugin := None;
     _session := None;
     _running := false;
     _steps_completed := 0;
     _improvements_found := 0;
     _current_best_params := None;
     _current_best_performance := None |}.

(** The property [peer_id]. *)
Definition runner_peer_id self : string := peer_id (identity self).

(** [load_plugin]: instantiate the class registered under the configured
    name, configure it, log. When the lookup raises, the runner is as it
    was; when [configure] raises, the new instance is already bound. *)
Definition load_plugin self h : result unit * OptimizationRunner P * list event :=
  match load_optimization_plugin env (OptimizerConfig.plugin_name (config self)) with
  | Raise e => (Raise e, self, h)
  | Ok fresh =>
      let self := set__plugin self (Some fresh) in
      match configure fresh (OptimizerConfig.plugin_config (config self)) with
      | Raise e => (Raise e, self, h)
      | Ok configured =>
          (Ok tt, set__plugin self (Some configured),
           h ++ [Log INFO "Loaded optimization plugin: %s for domain %s"
                   [PyStr (OptimizerConfig.plugin_name (config self));
                    PyStr (OptimizerConfig.domain_id (config self))]])
      end
  end.

(** [set_plugin]. *)
Definition set_plugin self (plugin : P) : OptimizationRunner P :=
  set__plugin self (Some plugin).

(** [stop]. *)
Definition stop self : OptimizationRunner P := set__running self false.

(** [session.post(url, json=...)] inside [async with], one call: a closed
    session raises before anything is sent; on an open one the outcome
    is that of the surroundings. *)
Definition session_post (session : ClientSession) h (url : string)
    (body : Message.t) : HttpOutcome * list event :=
  if closed session then (TransportFault, h)
  else let reply := node_reply env h url body in
       (reply, h ++ [Post url body reply]).

(** [_submit_optimae]. *)
Definition _submit_optimae self h (optimae : Optimae.t)
  : bool * list event :=
  match _session self with
  | None => (false, h ++ [Log WARNING "No session — cannot submit optimae" []])
  | Some session =>
      let announcement :=
        {| OptimaeAnnouncement.domain_id := Optimae.domain_id optimae;
           OptimaeAnnouncement.optimae_id := Optimae.id optimae;
           OptimaeAnnouncement.parameters := Optimae.parameters optimae;
           OptimaeAnnouncement.reported_performance :=
             Optimae.reported_performance optimae;
           OptimaeAnnouncement.previous_best_performance :=
             _current_best_performance self |} in
      let message :=
        {| Message.msg_type := OPTIMAE_ANNOUNCEMENT;
           Message.sender_id := runner_peer_id self;
           Message.payload := announcement |} in
      let url :=
        "http://" +:+ OptimizerConfig.node_endpoint (config self) +:+ "/message" in
      match session_post session h url message with
      | (Response status, h) =>
          let success := status =? 200 in
          if success then (true, h)
          else (false,
                h ++ [Log WARNING "Failed to submit optimae: HTTP %d" [PyInt status]])
      | (TransportFault, h) =>
          (false, h ++ [Log DEBUG "Failed to submit optimae to %s" [PyStr url]])
      end
  end.

(** The test of [_optimization_step] under the comment "Check if this is
    actually an improvement": [true] when one of its two [return None] is
    taken. Without a current best nothing is tested. *)
Definition rejects (plugin : P) (current_best_performance : option F64.t)
    (new_performance : F64.t) : bool :=
  match current_best_performance with
  | Some best =>
      let metadata := get_domain_metadata plugin in
      let higher_is_better := dict_get metadata "higher_is_better" (PyBool true) in
      if truthy higher_is_better && F64.le new_performance best then true
      else if negb (truthy higher_is_better) && F64.ge new_performance best then true
      else false
  | None => false
  end.

(** The direction that test reads from the metadata of the plugin. *)
Definition direction (plugin : P) : bool :=
  truthy (dict_get (get_domain_metadata plugin) "higher_is_better" (PyBool true)).

(** How the best pair of [self'] comes from that of [self]: unchanged, or
    both halves replaced by values. *)
Definition replaced_together self self' : Prop :=
  (_current_best_params self' = _current_best_params self /\
   _current_best_performance self' = _current_best_performance self) \/
  (is_Some (_current_best_params self') /\
   is_Some (_current_best_performance self')).

(** [_optimization_step]. *)
Definition _optimization_step self h
  : result (option Optimae.t) * OptimizationRunner P * list event :=
  match _plugin self with
  | None => (Raise AssertionError, self, h)
  | Some plugin =>
      let '(plugin, outcome) :=
        optimize plugin (_current_best_params self) (_current_best_performance self) in
      let self := set__plugin self (Some plugin) in
      match outcome with
      | RaisedNoImprovementError => (Ok None, self, h)
      | RaisedException =>
          (Ok None, self, h ++ [Log ERROR "Optimization step failed" []])
      | Returned new_params new_performance =>
          if rejects plugin (_current_best_performance self) new_performance
          then (Ok None, self, h)
          else
            (* Create optimae *)
            let increment :=
              match _current_best_performance self with
              | Some best => F64.abs (F64.sub new_performance best)
              | None => F64.zero
              end in
            let optimae :=
              {| Optimae.id := new_optimae_id env h;
                 Optimae.domain_id := OptimizerConfig.domain_id (config self);
                 Optimae.optimizer_id := runner_peer_id self;
                 Optimae.parameters := new_params;
                 Optimae.reported_performance := new_performance;
                 Optimae.performance_increment := increment |} in
            (* Update local best *)
            let self := set__current_best_params self (Some new_params) in
            let self := set__current_best_performance self (Some new_performance) in
            let self := set__improvements_found self (_improvements_found self + 1) in
            (* Submit to network *)
            let '(_, h) := _submit_optimae self h optimae in
            let h :=
              h ++ [Log INFO
                      "Improvement found! domain=%s performance=%.6f increment=%.6f (step %d)"
                      [PyStr (OptimizerConfig.domain_id (config self));
                       PyFloat new_performance; PyFloat increment;
                       PyInt (_steps_completed self)]] in
            (Ok (Some optimae), self, h)
      end
  end.

(** [run_single_step]. *)
Definition run_single_step self h
  : result (option Optimae.t) * OptimizationRunner P * list event :=
  match _plugin self with
  | None => (Raise (RuntimeError "Plugin not loaded"), self, h)
  | Some _ => _optimization_step self h
  end.

(** The test at the top of the loop of [start]:
    [self.config.max_steps and self._steps_completed >= self.config.max_steps].
    The left operand is tested for truth, so the bounds [None] and [0]
    both make the conjunction false. *)
Definition max_steps_reached self : bool :=
  match OptimizerConfig.max_steps (config self) with
  | Some m => truthy (PyInt m) && (_steps_completed self >=? m)
  | None => false
  end.

(** The [while self._running] loop of [start], run for at most [fuel]
    iterations. [None]: the loop is still running when the fuel is
    spent. [Some (Ok tt)]: it has ended, by the flag or by [break].
    [Some (Raise e)]: a step has raised. *)
Fixpoint start_loop (fuel : nat) self h {struct fuel}
  : option (result unit) * OptimizationRunner P * list event :=
  match fuel with
  | O => (None, self, h)
  | S fuel =>
      if negb (_running self) then (Some (Ok tt), self, h)
      else if max_steps_reached self then
        (Some (Ok tt), self,
         h ++ [Log INFO "Max steps reached (%d)"
                 [from_option PyInt PyNone (OptimizerConfig.max_steps (config self))]])
      else
        match _optimization_step self h with
        | (Raise e, self, h) => (Some (Raise e), self, h)
        | (Ok _, self, h) =>
            let self := set__steps_completed self (_steps_completed self + 1) in
            let h :=
              h ++ [Sleep (OptimizerConfig.optimization_interval (config self))] in
            let self := if stop_requested env h then stop self else self in
            start_loop fuel self h
        end
  end.

(** [start], with the fuel of its loop. The [finally] clause closes the
    session on every exit of the loop. *)
Definition start (fuel : nat) self h
  : option (result unit) * OptimizationRunner P * list event :=
  match _plugin self with
  | None =>
      (Some (Raise (RuntimeError
                      "Plugin not loaded — call load_plugin() or set_plugin() first")),
       self, h)
  | Some _ =>
      let self := set__session self (Some {| closed := false |}) in
      let h := h ++ [SessionOpened F64.lit_30_0] in
      let self := set__running self true in
      let h :=
        h ++ [Log INFO "Optimizer starting: domain=%s, node=%s"
                [PyStr (OptimizerConfig.domain_id (config self));
                 PyStr (OptimizerConfig.node_endpoint (config self))]] in
      match start_loop fuel self h with
      | (None, self, h) => (None, self, h)
      | (Some r, self, h) =>
          match _session self with
          | Some _ =>
              (Some r, set__session self (Some {| closed := true |}),
               h ++ [SessionClosed])
          | None => (Some r, self, h)
          end
      end
  end.

(** The property [stats]. *)
Definition stats self : gmap string pyval :=
  {[ "domain_id" := PyStr (OptimizerConfig.domain_id (config self));
     "peer_id" := PyStr (String.substring 0 12 (runner_peer_id self));
     "steps_completed" := PyInt (_steps_completed self);
     "improvements_found" := PyInt (_improvements_found self);
     "current_best_performance" :=
       from_option PyFloat PyNone (_current_best_performance self) ]}.

(** The invariant of the current best: parameters and performance are
    both [None] or both set. *)
Definition best_consistent self : Prop :=
  is_Some (_current_best_params self) <-> is_Some (_current_best_performance self).

(** A public operation of the runner, from a state and a history to the
    state it leaves. *)
Inductive operation : OptimizationRunner P -> OptimizationRunner P -> Prop :=
| op_load_plugin self h r self' h' :
    load_plugin self h = (r, self', h') -> operation self self'
| op_set_plugin self plugin :
    operation self (set_plugin self plugin)
| op_start fuel self h r self' h' :
    start fuel self h = (r, self', h') -> operation self self'
| op_stop self :
    operation self (stop self)
| op_run_single_step self h r self' h' :
    run_single_step self h = (r, self', h') -> operation self self'
| op__optimization_step self h r self' h' :
    _optimization_step self h = (r, self', h') -> operation self self'.

(** The states a runner can be in: those [__init__] builds, and those an
    operation leads to. *)
Inductive reachable : OptimizationRunner P -> Prop :=
| reach_init cfg ident : reachable (__init__ cfg ident)
| reach_op self self' : reachable self -> operation self self' -> reachable self'.

End Runner.

Arguments operation {P} {_} env _ _.
Arguments reachable {P} {_} env _.

(* ===================================================================== *)
(** ** Plugins and surroundings used as concrete inputs *)
(* ===================================================================== *)

(** [tests/test_runner.py], class [MockOptimizer]: the performance grows
    by 0.05 at every call. *)
Module MockOptimizer.
Record t : Type := mk { _step : Z; _configured : bool }.

Definition new : t := mk 0 false.

#[global] Instance mock_plugin : OptimizationPlugin t := {|
  configure self _ := Ok (mk (_step self) true);
  optimize self _ _ :=
    let step := _step self + 1 in
    let performance :=
      F64.add F64.lit_0_5 (F64.mul (F64.of_int step) F64.lit_0_05) in
    let params : gmap string pyval :=
      {[ "w" := PyInt step;
         "bias" := PyFloat (F64.mul F64.lit_0_1 (F64.of_int step)) ]} in
    (mk step (_configured self), Returned params performance);
  get_domain_metadata _ :=
    {[ "performance_metric" := PyStr "accuracy";
       "higher_is_better" := PyBool true ]};
|}.
End MockOptimizer.

(** [tests/test_runner.py], class [MockNoImprovementOptimizer]: always the
    same candidate. *)
Module MockNoImprovementOptimizer.
Inductive t : Type := new.

#[global] Instance flat_plugin : OptimizationPlugin t := {|
  configure self _ := Ok self;
  optimize self _ _ := (self, Returned {[ "w" := PyInt 1 ]} F64.lit_0_5);
  get_domain_metadata _ :=
    {[ "performance_metric" := PyStr "accuracy";
       "higher_is_better" := PyBool true ]};
|}.
End MockNoImprovementOptimizer.

(** A plugin that replays a script: each call of [optimize] ends in the
    next outcome of the list, and in [NoImprovementError] once the list
    is used up. Its metadata is whatever dictionary it was built with. *)
Module ScriptedOptimizer.
Record t : Type := mk {
  script : list OptimizeOutcome;
  metadata : gmap string pyval;
}.

#[global] Instance scripted_plugin : OptimizationPlugin t := {|
  configure self _ := Ok self;
  optimize self _ _ :=
    match script self with
    | [] => (self, RaisedNoImprovementError)
    | outcome :: rest => (mk rest (metadata self), outcome)
    end;
  get_domain_metadata self := metadata self;
|}.
End ScriptedOptimizer.

(** Surroundings in which the node answers every request with [reply],
    nobody calls [stop()], and no plugin is registered by name. *)
Definition quiet_env (P : Type) (reply : HttpOutcome) : Environment P :=
  {| load_optimization_plugin name := Raise (PluginError name);
     generate_identity := {| peer_id := "3f9a0c27d4e15b68a1c2" |};
     new_optimae_id h := "optimae-" +:+ pretty (length h);
     node_reply _ _ _ := reply;
     stop_requested _ := false |}.

(** The configuration of [TestOptimizationRunner._make_runner]. *)
Definition test_config : OptimizerConfig.t :=
  OptimizerConfig.mk "test-domain" "mock" ∅ "localhost:9999" F64.lit_1_0 None.

Definition with_max_steps (cfg : OptimizerConfig.t) (bound : option Z)
  : OptimizerConfig.t :=
  OptimizerConfig.mk (OptimizerConfig.domain_id cfg) (OptimizerConfig.plugin_name cfg)
    (OptimizerConfig.plugin_config cfg) (OptimizerConfig.node_endpoint cfg)
    (OptimizerConfig.optimization_interval cfg) bound.

(** [_make_runner()]: a runner on [test_config] with a [MockOptimizer]. *)
Definition make_runner (reply : HttpOutcome) : OptimizationRunner MockOptimizer.t :=
  set_plugin (__init__ (quiet_env _ reply) test_config None) MockOptimizer.new.

(** The runner of [_make_runner()] as [start] leaves it while the loop
    runs: a session is open. *)
Definition make_open_runner (reply : HttpOutcome) : OptimizationRunner MockOptimizer.t :=
  set__running (set__session (make_runner reply) (Some {| closed := false |})) true.

(** The state and the history after the first step of [make_runner]
    (the candidate 0.55 of [MockOptimizer], accepted as the first). *)
Definition after_first_step (reply : HttpOutcome)
  : OptimizationRunner MockOptimizer.t * list event :=
  let '(_, self, h) :=
    run_single_step (quiet_env _ reply) (make_runner reply) [] in
  (self, h).

(** A training run that diverges: a first candidate of performance 0.5,
    then a candidate whose performance is NaN. *)
Definition diverging_script : list OptimizeOutcome :=
  [ Returned {[ "w" := PyInt 1 ]} F64.lit_0_5;
    Returned {[ "w" := PyInt 2 ]} F64.nan ].

Definition diverging_runner (metadata : gmap string pyval)
  : OptimizationRunner ScriptedOptimizer.t :=
  set_plugin (__init__ (quiet_env _ (Response 200)) test_config None)
    (ScriptedOptimizer.mk diverging_script metadata).

(** An Optimae record to submit: the first one of [MockOptimizer]. *)
Definition first_optimae : Optimae.t :=
  {| Optimae.id := "optimae-0";
     Optimae.domain_id := "test-domain";
     Optimae.optimizer_id := "3f9a0c27d4e15b68a1c2";
     Optimae.parameters :=
       {[ "w" := PyInt 1; "bias" := PyFloat F64.lit_0_1 ]};
     Optimae.reported_performance := F64.lit_0_55;
     Optimae.performance_increment := F64.zero |}.

(** The record a step returned, when it returned one. *)
Definition optimae_of (r : result (option Optimae.t)) : Optimae.t :=
  match r with
  | Ok (Some o) => o
  | _ => first_optimae
  end.

(** The second step of [make_runner], from [after_first_step]. *)
Definition second_step (reply : HttpOutcome)
  : result (option Optimae.t) * OptimizationRunner MockOptimizer.t * list event :=
  _optimization_step (quiet_env _ reply)
    (fst (after_first_step reply)) (snd (after_first_step reply)).

(** The runner of [test_no_improvement_returns_none] after its first
    step: the best is the candidate 0.5 that the plugin returns again. *)
Definition flat_runner : OptimizationRunner MockNoImprovementOptimizer.t :=
  set_plugin
    (__init__ (quiet_env _ (Response 200)) (OptimizerConfig.default "test-domain" "mock")
       None)
    MockNoImprovementOptimizer.new.

Definition after_flat_step
  : OptimizationRunner MockNoImprovementOptimizer.t * list event :=
  let '(_, self, h) := run_single_step (quiet_env _ (Response 200)) flat_runner [] in
  (self, h).

(* ===================================================================== *)
(** ** Counting the events of a history *)
(* ===================================================================== *)

Definition is_sleep (e : event) : bool :=
  match e with Sleep _ => true | _ => false end.

Definition is_session_opened (e : event) : bool :=
  match e with SessionOpened _ => true | _ => false end.

Definition is_session_closed (e : event) : bool :=
  match e with SessionClosed => true | _ => false end.

Definition count_events (p : event -> bool) (h : list event) : nat :=
  length (List.filter p h).

(** A stretch of history without the events no step produces: sleeps and
    the opening and closing of sessions. *)
Definition quiet (tail : list event) : Prop :=
  count_events is_sleep tail = 0%nat /\
  count_events is_session_opened tail = 0%nat /\
  count_events is_session_closed tail = 0%nat.

(** The session of the runner can carry a request: it is set and not
    closed. *)
Definition session_is_open {P : Type} (self : OptimizationRunner P) : bool :=
  match _session self with
  | Some session => negb (closed session)
  | None => false
  end.

(* ===================================================================== *)
(** ** The command line: [cli.py] *)
(* ===================================================================== *)

(** The [argparse.Namespace] that [parse_args] returns. *)
Module Namespace.
Record t : Type := mk {
  domain_id : string;
  plugin : string;
  plugin_config : option string;
  node : string;
  interval : F64.t;
  max_steps : option Z;
  key_file : option string;
  log_level : string;
}.

(** The namespace of a command line that gives the two required options
    only: every other attribute has the default of its [add_argument]. *)
Definition defaults (domain_id plugin : string) : t :=
  mk domain_id plugin None "localhost:8470" F64.lit_1_0 None None "INFO".
End Namespace.

(** The two files [run_optimizer] reads. [None] stands for any exception
    of the call; [run_optimizer] catches none of them. *)
Record FileSystem : Type := {
  (** [json.loads(Path(path).read_text())]. *)
  read_json : string -> option (gmap string pyval);
  (** [PeerIdentity.from_file(path)]. *)
  identity_from_file : string -> option PeerIdentity;
}.

Inductive signal : Type := SIGINT | SIGTERM.

(** The running event loop, as far as [run_optimizer] uses it:
    [loop.add_signal_handler(sig, ...)] installs the handler ([true]) or
    raises ([false]), as it does where the loop has no support for
    signals. *)
Record EventLoop : Type := {
  add_signal_handler : signal -> bool;
}.

(** The exceptions of [run_optimizer], by the statement they come from:
    one of the two files, [runner.load_plugin()], a call of
    [add_signal_handler], [runner.start()]. *)
Inductive cli_exception : Type :=
| FileError (path : string)
| LoadError (e : exception)
| SignalError (sig : signal)
| LoopError (e : exception).

(** How a call of [run_optimizer] stands when the fuel of the loop is
    spent: returned, raised, or still in the loop. *)
Inductive cli_outcome : Type :=
| CliReturned
| CliRaised (e : cli_exception)
| CliRunning.

Section Cli.

Context {P : Type} `{OptimizationPlugin P}
  (fs : FileSystem) (loop : EventLoop) (env : Environment P).

(** [run_optimizer(args)]. The handlers it installs call
    [runner.stop()]; their calls are the [stop_requested] of the
    surroundings. The runner is returned once it is built. *)
Definition run_optimizer (fuel : nat) (args : Namespace.t) (h : list event)
  : cli_outcome * option (OptimizationRunner P) * list event :=
  let plugin_config :=
    match Namespace.plugin_config args with
    | Some path =>
        if truthy (PyStr path)
        then match read_json fs path with
             | Some d => inr d
             | None => inl (FileError path)
             end
        else inr ∅
    | None => inr ∅
    end in
  match plugin_config with
  | inl e => (CliRaised e, None, h)
  | inr plugin_config =>
      let identity :=
        match Namespace.key_file args with
        | Some path =>
            if truthy (PyStr path)
            then match identity_from_file fs path with
                 | Some i => inr (Some i)
                 | None => inl (FileError path)
                 end
            else inr None
        | None => inr None
        end in
      match identity with
      | inl e => (CliRaised e, None, h)
      | inr identity =>
          let config :=
            {| OptimizerConfig.domain_id := Namespace.domain_id args;
               OptimizerConfig.plugin_name := Namespace.plugin args;
               OptimizerConfig.plugin_config := plugin_config;
               OptimizerConfig.node_endpoint := Namespace.node args;
               OptimizerConfig.optimization_interval := Namespace.interval args;
               OptimizerConfig.max_steps := Namespace.max_steps args |} in
          let runner := __init__ env config identity in
          match load_plugin env runner h with
          | (Raise e, runner, h) => (CliRaised (LoadError e), Some runner, h)
          | (Ok _, runner, h) =>
              if negb (add_signal_handler loop SIGINT)
              then (CliRaised (SignalError SIGINT), Some runner, h)
              else if negb (add_signal_handler loop SIGTERM)
              then (CliRaised (SignalError SIGTERM), Some runner, h)
              else
                match start env fuel runner h with
                | (None, runner, h) => (CliRunning, Some runner, h)
                | (Some (Ok _), runner, h) => (CliReturned, Some runner, h)
                | (Some (Raise e), runner, h) =>
                    (CliRaised (LoopError e), Some runner, h)
                end
          end
      end
  end.

End Cli.

(** A plugin that insists on its configuration: [configure] raises
    unless the options give a learning rate. *)
Module StrictOptimizer.
Record t : Type := mk { learning_rate : option pyval }.

Definition new : t := mk None.

#[global] Instance strict_plugin : OptimizationPlugin t := {|
  configure self options :=
    match options !! "learning_rate" with
    | Some v => Ok (mk (Some v))
    | None => Raise (PluginError "learning_rate is required")
    end;
  optimize self _ _ := (self, Returned {[ "w" := PyInt 1 ]} F64.lit_0_5);
  get_domain_metadata _ := {[ "higher_is_better" := PyBool true ]};
|}.
End StrictOptimizer.

(** Surroundings like [quiet_env], with one plugin class registered:
    [name] gives a copy of [fresh]. *)
Definition registry_env {P : Type} (name : string) (fresh : P) (reply : HttpOutcome)
  : Environment P :=
  {| load_optimization_plugin n :=
       if String.eqb n name then Ok fresh else Raise (PluginError n);
     generate_identity := {| peer_id := "3f9a0c27d4e15b68a1c2" |};
     new_optimae_id h := "optimae-" +:+ pretty (length h);
     node_reply _ _ _ := reply;
     stop_requested _ := false |}.


(** No file can be read. *)
Definition no_files : FileSystem :=
  {| read_json _ := None; identity_from_file _ := None |}.

(** An event loop that installs every handler, and one without support
    for signals. *)
Definition unix_loop : EventLoop := {| add_signal_handler _ := true |}.

Definition loop_without_signals : EventLoop := {| add_signal_handler _ := false |}.

(** The runner of the tests with a bound of two steps, and a run of
    [start] on it against a node that answers 200. *)
Definition bounded_runner : OptimizationRunner MockOptimizer.t :=
  set_plugin
    (__init__ (quiet_env _ (Response 200)) (with_max_steps test_config (Some 2)) None)
    MockOptimizer.new.

Definition bounded_run
  : option (result unit) * OptimizationRunner MockOptimizer.t * list event :=
  start (quiet_env _ (Response 200)) 4 bounded_runner [].

(** A run in which everything fails: the plugin raises at its first
    call, and the node cannot be reached when the second call gives a
    candidate. *)
Definition faulty_runner : OptimizationRunner ScriptedOptimizer.t :=
  set_plugin
    (__init__ (quiet_env _ TransportFault) (with_max_steps test_config (Some 2)) None)
    (ScriptedOptimizer.mk
       [ RaisedException; Returned {[ "w" := PyInt 1 ]} F64.lit_0_5 ] ∅).

Definition faulty_run
  : option (result unit) * OptimizationRunner ScriptedOptimizer.t * list event :=
  start (quiet_env _ TransportFault) 4 faulty_runner [].

(** What a call of [start] returned, when it has returned. *)
Definition returned_of (r : option (result unit)) : result unit :=
  match r with
  | Some r => r
  | None => Raise AssertionError
  end.


(** The command line [--domain-id test-domain --plugin <name>
    --max-steps 2]. *)
Definition cli_args (plugin : string) : Namespace.t :=
  Namespace.mk "test-domain" plugin None "localhost:8470" F64.lit_1_0 (Some 2)
    None "INFO".

Definition cli_run (loop : EventLoop) (plugin : string)
  : cli_outcome * option (OptimizationRunner MockOptimizer.t) * list event :=
  run_optimizer no_files loop (registry_env "mock" MockOptimizer.new (Response 200))
    3 (cli_args plugin) [].

(* ===================================================================== *)
(** ** Comparisons of binary64 values *)
(* ===================================================================== *)

Lemma SFcompare_antisym (x y : spec_float) :
  SFcompare y x = option_map CompOpp (SFcompare x y).
Proof.
  destruct x as [sx|sx| |sx mx ex], y as [sy|sy| |sy my ey]; simpl;
    try reflexivity;
    try (destruct sx; reflexivity);
    try (destruct sy; reflexivity);
    try (destruct sx, sy; reflexivity).
  destruct sx, sy; simpl; try reflexivity;
    rewrite (Z.compare_antisym ex ey);
    destruct (ex ?= ey) eqn:E; simpl; try reflexivity;
    change (Pcompare my mx Eq) with (Pos.compare my mx);
    change (Pcompare mx my Eq) with (Pos.compare mx my);
    rewrite (Pos.compare_antisym mx my); reflexivity.
Qed.

Lemma SFcompare_number (x y : F64.t) :
  F64.is_nan x = false -> F64.is_nan y = false ->
  exists c, SFcompare x y = Some c.
Proof.
  destruct x, y; simpl; intros; try discriminate; eauto.
Qed.

(** Between two numbers, [<=] is the negation of [>] and [>=] the
    negation of [<]. *)
Lemma le_number_not_gt (x y : F64.t) :
  F64.is_nan x = false -> F64.is_nan y = false ->
  F64.le x y = negb (F64.gt x y).
Proof.
  intros Hx Hy. destruct (SFcompare_number x y Hx Hy) as [c Hc].
  unfold F64.le, F64.gt, SFleb. rewrite Hc. now destruct c.
Qed.

Lemma ge_number_not_lt (x y : F64.t) :
  F64.is_nan x = false -> F64.is_nan y = false ->
  F64.ge x y = negb (F64.lt x y).
Proof.
  intros Hx Hy. destruct (SFcompare_number x y Hx Hy) as [c Hc].
  unfold F64.ge, F64.lt, SFltb. rewrite Hc. now destruct c.
Qed.

Lemma gt_lt_swap (x y : F64.t) : F64.gt x y = F64.lt y x.
Proof.
  unfold F64.gt, F64.lt, SFltb. rewrite (SFcompare_antisym x y).
  now destruct (SFcompare x y) as [[]|].
Qed.

(** With NaN on either side every comparison is false. *)
Lemma compare_nan_l (y : F64.t) :
  F64.le F64.nan y = false /\ F64.ge F64.nan y = false /\
  F64.lt F64.nan y = false /\ F64.gt F64.nan y = false.
Proof. now destruct y. Qed.

Lemma compare_nan_r (x : F64.t) :
  F64.le x F64.nan = false /\ F64.ge x F64.nan = false /\
  F64.lt x F64.nan = false /\ F64.gt x F64.nan = false.
Proof. now destruct x. Qed.

(* ===================================================================== *)
(** ** One step *)
(* ===================================================================== *)

(** Opens [_optimization_step] on a runner whose plugin is known and
    splits on what [optimize] ends in and on the improvement test. *)
Ltac open_step :=
  unfold run_single_step, _optimization_step in *;
  repeat match goal with
  | Hp : _plugin ?s = _ |- _ => rewrite Hp in *
  | Ho : optimize _ _ _ = _ |- _ => rewrite Ho in *
  end;
  cbn [_current_best_performance _current_best_params _improvements_found
       set__plugin set__current_best_params set__current_best_performance
       set__improvements_found] in *.

Section StepFacts.

Context {P : Type} `{OptimizationPlugin P} (env : Environment P).

Implicit Types (self : OptimizationRunner P) (h : list event).

(** Submitting only extends the history. *)
Lemma _submit_optimae_extends self h o :
  exists tail, snd (_submit_optimae env self h o) = h ++ tail.
Proof.
  unfold _submit_optimae, session_post.
  destruct (_session self) as [s|]; [|eauto].
  destruct (closed s); [eauto|].
  destruct (node_reply env h _ _) as [status|]; cbn.
  - destruct (status =? 200); cbn; rewrite <- ?app_assoc; eauto.
  - rewrite <- app_assoc; eauto.
Qed.

(** What a step never touches: the configuration, the identity, the
    session, the running flag and the step counter; and a bound plugin
    stays bound. *)
Lemma _optimization_step_frame self h r self' h' :
  _optimization_step env self h = (r, self', h') ->
  config self' = config self /\ identity self' = identity self /\
  _session self' = _session self /\ _running self' = _running self /\
  _steps_completed self' = _steps_completed self /\
  (is_Some (_plugin self) -> is_Some (_plugin self')).
Proof.
  unfold _optimization_step.
  destruct (_plugin self) as [plugin|] eqn:Hp.
  - destruct (optimize plugin _ _) as [plugin' outcome].
    destruct outcome as [p f| |]; cbn.
    + destruct (rejects _ _ _); [|destruct (_submit_optimae _ _ _ _)];
        intros [= <- <- <-]; cbn; eauto 10.
    + intros [= <- <- <-]; cbn; eauto 10.
    + intros [= <- <- <-]; cbn; eauto 10.
  - intros [= <- <- <-]. rewrite Hp. intuition.
Qed.

(** With a plugin bound, a step returns; it raises nothing. *)
Lemma _optimization_step_returns self h :
  is_Some (_plugin self) ->
  exists res self' h', _optimization_step env self h = (Ok res, self', h').
Proof.
  intros [plugin Hp]. unfold _optimization_step. rewrite Hp.
  destruct (optimize plugin _ _) as [plugin' outcome].
  destruct outcome as [p f| |]; cbn; eauto.
  destruct (rejects _ _ _); [|destruct (_submit_optimae _ _ _ _)]; eauto.
Qed.

(** A step that returns [None] leaves the current best and the counter of
    improvements as they were. *)
Lemma none_step_changes_nothing self h self' h' :
  _optimization_step env self h = (Ok None, self', h') ->
  _current_best_params self' = _current_best_params self /\
  _current_best_performance self' = _current_best_performance self /\
  _improvements_found self' = _improvements_found self.
Proof.
  unfold _optimization_step.
  destruct (_plugin self) as [plugin|]; [|discriminate].
  destruct (optimize plugin _ _) as [plugin' outcome].
  destruct outcome as [p f| |]; cbn.
  - destruct (rejects _ _ _); [|destruct (_submit_optimae _ _ _ _); discriminate].
    intros [= <- <-]; cbn; auto.
  - intros [= <- <-]; cbn; auto.
  - intros [= <- <-]; cbn; auto.
Qed.

(** C3. For every accepted candidate, the performance increment of the
    Optimae record is 0 when there was no prior best, and
    [abs(new_performance - previous best)] when there was one, where the
    new performance is the one the plugin returned and the record
    reports. *)
Theorem accepted_increment self h o self' h' :
  _optimization_step env self h = (Ok (Some o), self', h') ->
  (exists plugin plugin' new_params,
      _plugin self = Some plugin /\
      optimize plugin (_current_best_params self) (_current_best_performance self)
        = (plugin', Returned new_params (Optimae.reported_performance o))) /\
  Optimae.performance_increment o =
    match _current_best_performance self with
    | None => F64.zero
    | Some previous_best =>
        F64.abs (F64.sub (Optimae.reported_performance o) previous_best)
    end.
Proof.
  unfold _optimization_step.
  destruct (_plugin self) as [plugin|]; [|discriminate].
  destruct (optimize plugin _ _) as [plugin' outcome] eqn:Ho.
  destruct outcome as [p f| |]; cbn; try discriminate.
  destruct (rejects _ _ _); [discriminate|].
  destruct (_submit_optimae _ _ _ _).
  intros [= <- <- <-]; cbn. split; [|reflexivity]. eauto.
Qed.

(** C6. A step that does not accept a candidate, because the strategy
    raised [NoImprovementError], or raised another exception, or because
    the improvement test rejected the candidate, returns [None] to its
    caller without raising, through [run_single_step] as well as inside
    the loop, and leaves the current-best parameters, the current-best
    performance and the counter of improvements unchanged. *)
Theorem unaccepted_step_is_none self h plugin plugin' outcome :
  _plugin self = Some plugin ->
  optimize plugin (_current_best_params self) (_current_best_performance self)
    = (plugin', outcome) ->
  outcome = RaisedNoImprovementError \/
  outcome = RaisedException \/
  (exists new_params new_performance,
      outcome = Returned new_params new_performance /\
      rejects plugin' (_current_best_performance self) new_performance = true) ->
  exists self' h',
    run_single_step env self h = (Ok None, self', h') /\
    _optimization_step env self h = (Ok None, self', h') /\
    _current_best_params self' = _current_best_params self /\
    _current_best_performance self' = _current_best_performance self /\
    _improvements_found self' = _improvements_found self.
Proof.
  intros Hp Ho Hcase. open_step.
  destruct Hcase as [->|[->|(p & f & -> & Hrej)]]; cbn.
  - eexists _, _; repeat split; reflexivity.
  - eexists _, _; repeat split; reflexivity.
  - rewrite Hrej. eexists _, _; repeat split; reflexivity.
Qed.

(** C7. Once a candidate is accepted, the local record does not depend on
    the fate of the submission: whatever [_submit_optimae] returns ([ok]
    below, false on a non-success status or a transport fault), the
    current best is the new pair, the counter of improvements is one
    higher, and the step returns the accepted Optimae. *)
Theorem accepted_is_kept self h plugin plugin' new_params new_performance :
  _plugin self = Some plugin ->
  optimize plugin (_current_best_params self) (_current_best_performance self)
    = (plugin', Returned new_params new_performance) ->
  rejects plugin' (_current_best_performance self) new_performance = false ->
  exists o self' h' ok h_submit,
    _optimization_step env self h = (Ok (Some o), self', h') /\
    run_single_step env self h = (Ok (Some o), self', h') /\
    _submit_optimae env self' h o = (ok, h_submit) /\
    (exists tail, h' = h_submit ++ tail) /\
    Optimae.parameters o = new_params /\
    Optimae.reported_performance o = new_performance /\
    _current_best_params self' = Some new_params /\
    _current_best_performance self' = Some new_performance /\
    _improvements_found self' = _improvements_found self + 1.
Proof.
  intros Hp Ho Hacc. open_step. rewrite Hacc.
  match goal with
  | |- context [_submit_optimae env ?s h ?o] =>
      destruct (_submit_optimae env s h o) as [ok h_submit] eqn:Hs
  end.
  eexists _, _, _, ok, h_submit.
  repeat split; try reflexivity; eauto.
Qed.

(** C8. On a runner without a plugin, [run_single_step] and [start] raise
    [RuntimeError] ("Plugin not loaded"), the error the specification
    calls NotReadyError: the runner and the history are returned as they
    were (no step has run, no session was opened, whatever the fuel of
    the loop). Only that call fails: once a plugin is set, the same
    runner steps. *)
Theorem unbound_runner_raises self h fuel :
  _plugin self = None ->
  run_single_step env self h = (Raise (RuntimeError "Plugin not loaded"), self, h) /\
  start env fuel self h =
    (Some (Raise (RuntimeError
                    "Plugin not loaded — call load_plugin() or set_plugin() first")),
     self, h) /\
  forall plugin, exists res self' h',
    run_single_step env (set_plugin self plugin) h = (Ok res, self', h').
Proof.
  intros Hp. unfold run_single_step at 1. unfold start. rewrite Hp.
  repeat split. intros plugin.
  destruct (_optimization_step_returns (set_plugin self plugin) h)
    as (res & self' & h' & Hstep); [cbn; eauto|].
  exists res, self', h'. unfold run_single_step. cbn [set_plugin set__plugin _plugin].
  exact Hstep.
Qed.

End StepFacts.

(* ===================================================================== *)
(** ** The improvement test *)
(* ===================================================================== *)

Section ImprovementTest.

Context {P : Type} `{OptimizationPlugin P} (env : Environment P).

Implicit Types (self : OptimizationRunner P) (h : list event) (plugin : P).

Lemma rejects_first plugin new_performance :
  rejects plugin None new_performance = false.
Proof. reflexivity. Qed.

Lemma rejects_higher plugin best new_performance :
  direction plugin = true ->
  rejects plugin (Some best) new_performance = F64.le new_performance best.
Proof.
  unfold direction, rejects. intros ->. cbn.
  now destruct (F64.le new_performance best).
Qed.

Lemma rejects_lower plugin best new_performance :
  direction plugin = false ->
  rejects plugin (Some best) new_performance = F64.ge new_performance best.
Proof.
  unfold direction, rejects. intros ->. cbn.
  now destruct (F64.ge new_performance best).
Qed.

(** Metadata without the key [higher_is_better] read as higher is
    better. *)
Lemma missing_key_is_higher plugin :
  get_domain_metadata plugin !! "higher_is_better" = None ->
  direction plugin = true.
Proof. unfold direction, dict_get. now intros ->. Qed.

(** Between numbers, the candidates that pass the test are the strict
    improvements in the direction of the domain. *)
Lemma numbers_pass_iff_strict plugin best new_performance :
  F64.is_nan new_performance = false -> F64.is_nan best = false ->
  negb (rejects plugin (Some best) new_performance) =
    if direction plugin then F64.gt new_performance best
    else F64.lt new_performance best.
Proof.
  intros Hn Hb. destruct (direction plugin) eqn:Hd.
  - rewrite rejects_higher, le_number_not_gt by assumption.
    apply negb_involutive.
  - rewrite rejects_lower, ge_number_not_lt by assumption.
    apply negb_involutive.
Qed.

(** A NaN candidate passes the test in either direction, and so does
    every candidate once the current best is NaN. *)
Lemma nan_passes plugin best :
  rejects plugin (Some best) F64.nan = false.
Proof.
  destruct (compare_nan_l best) as (Hle & Hge & _).
  destruct (direction plugin) eqn:Hd;
    [rewrite rejects_higher | rewrite rejects_lower]; assumption.
Qed.

Lemma nan_best_passes plugin new_performance :
  rejects plugin (Some F64.nan) new_performance = false.
Proof.
  destruct (compare_nan_r new_performance) as (Hle & Hge & _).
  destruct (direction plugin) eqn:Hd;
    [rewrite rejects_higher | rewrite rejects_lower]; assumption.
Qed.

(** Equal performances are rejected in both directions. *)
Lemma equal_is_rejected plugin best new_performance :
  SFcompare new_performance best = Some Eq ->
  rejects plugin (Some best) new_performance = true.
Proof.
  intros Heq. destruct (direction plugin) eqn:Hd.
  - rewrite rejects_higher by assumption. unfold F64.le, SFleb. now rewrite Heq.
  - rewrite rejects_lower by assumption. unfold F64.ge. now rewrite Heq.
Qed.

(** A step accepts the candidate of the plugin exactly when the test does
    not reject it. *)
Lemma step_accepts_iff self h plugin plugin' new_params new_performance :
  _plugin self = Some plugin ->
  optimize plugin (_current_best_params self) (_current_best_performance self)
    = (plugin', Returned new_params new_performance) ->
  (exists o self' h', _optimization_step env self h = (Ok (Some o), self', h')) <->
  rejects plugin' (_current_best_performance self) new_performance = false.
Proof.
  intros Hp Ho. open_step.
  destruct (rejects plugin' _ new_performance).
  - split; [intros (o & s & h' & [=]) | discriminate].
  - split; [reflexivity|]. intros _.
    match goal with
    | |- context [_submit_optimae env ?s h ?o] =>
        destruct (_submit_optimae env s h o)
    end.
    eauto.
Qed.

(** With a current best, and both performances numbers, a step accepts
    the candidate iff it is a strict improvement in the direction of the
    domain; without a current best it accepts every candidate. *)
Lemma step_accepts_number_iff_strict self h plugin plugin' new_params
    new_performance best :
  _plugin self = Some plugin ->
  _current_best_performance self = Some best ->
  optimize plugin (_current_best_params self) (Some best)
    = (plugin', Returned new_params new_performance) ->
  F64.is_nan new_performance = false -> F64.is_nan best = false ->
  (exists o self' h', _optimization_step env self h = (Ok (Some o), self', h')) <->
  (if direction plugin' then F64.gt new_performance best
   else F64.lt new_performance best) = true.
Proof.
  intros Hp Hb Ho Hn Hnb. rewrite <- Hb in Ho.
  rewrite (step_accepts_iff self h plugin plugin' new_params new_performance Hp Ho).
  rewrite Hb, <- (numbers_pass_iff_strict plugin' best new_performance Hn Hnb).
  now destruct (rejects plugin' (Some best) new_performance).
Qed.

Lemma step_accepts_first self h plugin plugin' new_params new_performance :
  _plugin self = Some plugin ->
  _current_best_performance self = None ->
  optimize plugin (_current_best_params self) None
    = (plugin', Returned new_params new_performance) ->
  exists o self' h', _optimization_step env self h = (Ok (Some o), self', h').
Proof.
  intros Hp Hb Ho. rewrite <- Hb in Ho.
  apply (step_accepts_iff self h plugin plugin' new_params new_performance Hp Ho).
  now rewrite Hb.
Qed.

End ImprovementTest.

(* ===================================================================== *)
(** ** Submission *)
(* ===================================================================== *)

Section Submission.

Context {P : Type} `{OptimizationPlugin P} (env : Environment P).

Implicit Types (self : OptimizationRunner P) (h : list event).

Lemma posted_app (h1 h2 : list event) : posted (h1 ++ h2) = posted h1 ++ posted h2.
Proof. apply omap_app. Qed.

(** Without a session, or on a closed one, nothing is sent and the
    submission fails. *)
Lemma submit_without_open_session self h o :
  (_session self = None \/ exists s, _session self = Some s /\ closed s = true) ->
  fst (_submit_optimae env self h o) = false /\
  posted (snd (_submit_optimae env self h o)) = posted h.
Proof.
  unfold _submit_optimae, session_post.
  intros [-> | (s & -> & ->)]; cbn; rewrite posted_app; cbn;
    rewrite app_nil_r; auto.
Qed.


(** The payload of the announcement of an accepted step through an open
    session: the fields of the Optimae record, and as previous best the
    performance the record reports, since the current best is updated
    before the submission reads it. *)
Lemma announcement_of_accepted_step self h o self' h' session :
  _optimization_step env self h = (Ok (Some o), self', h') ->
  _session self = Some session -> closed session = false ->
  exists url body reply rest,
    h' = h ++ Post url body reply :: rest /\
    Message.msg_type body = OPTIMAE_ANNOUNCEMENT /\
    Message.sender_id body = runner_peer_id self /\
    Message.payload body =
      {| OptimaeAnnouncement.domain_id := Optimae.domain_id o;
         OptimaeAnnouncement.optimae_id := Optimae.id o;
         OptimaeAnnouncement.parameters := Optimae.parameters o;
         OptimaeAnnouncement.reported_performance := Optimae.reported_performance o;
         OptimaeAnnouncement.previous_best_performance :=
           Some (Optimae.reported_performance o) |}.
Proof.
  intros Hstep Hs Hopen. revert Hstep. unfold _optimization_step.
  destruct (_plugin self) as [plugin|]; [|discriminate].
  destruct (optimize plugin _ _) as [plugin' outcome].
  destruct outcome as [p f| |]; cbn; try discriminate.
  destruct (rejects _ _ _); [discriminate|].
  unfold _submit_optimae, session_post. cbn. rewrite Hs, Hopen.
  match goal with
  | |- context [node_reply env h ?u ?b] =>
      destruct (node_reply env h u b) as [status|]
  end.
  - destruct (status =? 200); cbn; intros [= <- <- <-]; cbn;
      rewrite <- ?app_assoc; cbn; eexists _, _, _, _; repeat split.
  - intros [= <- <- <-]; cbn.
    rewrite <- ?app_assoc; cbn; eexists _, _, _, _; repeat split.
Qed.

End Submission.

(* ===================================================================== *)
(** ** The loop of [start] *)
(* ===================================================================== *)

Section Loop.

Context {P : Type} `{OptimizationPlugin P} (env : Environment P).

Implicit Types (self : OptimizationRunner P) (h : list event).

(** One more iteration of a loop that neither stopped nor reached its
    bound: a step, the counter, the sleep, then the rest. *)
Lemma start_loop_iteration fuel self h res self1 h1 :
  _running self = true ->
  max_steps_reached self = false ->
  _optimization_step env self h = (Ok res, self1, h1) ->
  start_loop env (S fuel) self h =
    let self2 := set__steps_completed self1 (_steps_completed self1 + 1) in
    let h2 := h1 ++ [Sleep (OptimizerConfig.optimization_interval (config self2))] in
    start_loop env fuel (if stop_requested env h2 then stop self2 else self2) h2.
Proof.
  intros Hr Hm Hs. cbn [start_loop]. rewrite Hr, Hm, Hs. reflexivity.
Qed.

(** A bound of 0 is never reached: as long as nobody calls [stop()], the
    loop is still running after any number of iterations, each of which
    completed a step. *)
Lemma start_loop_zero_bound fuel : forall self h,
  (forall h', stop_requested env h' = false) ->
  OptimizerConfig.max_steps (config self) = Some 0 ->
  _running self = true ->
  is_Some (_plugin self) ->
  exists self' h',
    start_loop env fuel self h = (None, self', h') /\
    _steps_completed self' = _steps_completed self + Z.of_nat fuel.
Proof.
  induction fuel as [|fuel IH]; intros self h Hstop Hmax Hrun Hp.
  - exists self, h. split; [reflexivity | cbn; lia].
  - destruct (_optimization_step_returns env self h Hp) as (res & self1 & h1 & Hs).
    destruct (_optimization_step_frame env _ _ _ _ _ Hs)
      as (Hc & _ & _ & Hr & Hn & Hp1).
    rewrite (start_loop_iteration fuel self h res self1 h1); auto.
    + cbn zeta. rewrite Hstop.
      destruct (IH (set__steps_completed self1 (_steps_completed self1 + 1))
                  (h1 ++ [Sleep (OptimizerConfig.optimization_interval
                                   (config (set__steps_completed self1
                                              (_steps_completed self1 + 1))))]))
        as (self' & h' & Hl & Hk); cbn; try congruence; auto.
      exists self', h'. split; [exact Hl|]. cbn in Hk. lia.
    + unfold max_steps_reached. rewrite Hmax. reflexivity.
Qed.

(** A positive bound works: with a plugin bound and enough fuel the loop
    ends without an exception, and the counter of completed steps never
    passes the bound (or stays where it was, if it was beyond already). *)
Lemma start_loop_positive_bound m fuel : forall self h,
  OptimizerConfig.max_steps (config self) = Some m ->
  0 < m ->
  is_Some (_plugin self) ->
  Z.max 0 (m - _steps_completed self) < Z.of_nat fuel ->
  exists self' h',
    start_loop env fuel self h = (Some (Ok tt), self', h') /\
    _steps_completed self <= _steps_completed self' /\
    _steps_completed self' <= Z.max m (_steps_completed self).
Proof.
  induction fuel as [|fuel IH]; intros self h Hmax Hm Hp Hfuel; [lia|].
  destruct (_running self) eqn:Hrun.
  2:{ exists self, h. cbn [start_loop]. rewrite Hrun. cbn. split; [reflexivity|lia]. }
  destruct (max_steps_reached self) eqn:Hreach.
  { eexists self, _. cbn [start_loop]. rewrite Hrun, Hreach. cbn.
    split; [reflexivity|lia]. }
  assert (Hlt : _steps_completed self < m).
  { unfold max_steps_reached in Hreach. rewrite Hmax in Hreach. cbn in Hreach.
    destruct (m =? 0) eqn:E; [apply Z.eqb_eq in E; lia|]. cbn in Hreach.
    rewrite Z.geb_leb in Hreach. apply Z.leb_gt in Hreach. exact Hreach. }
  destruct (_optimization_step_returns env self h Hp) as (res & self1 & h1 & Hs).
  destruct (_optimization_step_frame env _ _ _ _ _ Hs)
    as (Hc & _ & _ & Hr & Hn & Hp1).
  rewrite (start_loop_iteration fuel self h res self1 h1); auto.
  cbn zeta.
  match goal with
  | |- context [start_loop env fuel ?s ?hh] =>
      destruct (IH s hh) as (self' & h' & Hl & Hlo & Hhi)
  end.
  - destruct (stop_requested env _); cbn; congruence.
  - exact Hm.
  - destruct (stop_requested env _); cbn; auto.
  - destruct (stop_requested env _); cbn; lia.
  - exists self', h'. split; [exact Hl|].
    destruct (stop_requested env _); cbn in Hlo, Hhi; lia.
Qed.

(** The loop changes neither the configuration nor the session. *)
Lemma start_loop_frame fuel : forall self h r self' h',
  start_loop env fuel self h = (r, self', h') ->
  config self' = config self /\ _session self' = _session self.
Proof.
  induction fuel as [|fuel IH]; intros self h r self' h'; cbn [start_loop].
  - intros [= <- <- <-]. auto.
  - destruct (negb (_running self)); [intros [= <- <- <-]; auto|].
    destruct (max_steps_reached self); [intros [= <- <- <-]; auto|].
    destruct (_optimization_step env self h) as [[res self1] h1] eqn:Hs.
    destruct (_optimization_step_frame env _ _ _ _ _ Hs) as (Hc & _ & Hse & _).
    destruct res as [res|e]; [|intros [= <- <- <-]; auto].
    intros Hl. apply IH in Hl. destruct Hl as [Hc' Hse'].
    destruct (stop_requested env _); cbn in Hc', Hse'; split; congruence.
Qed.

End Loop.

Section Start.

Context {P : Type} `{OptimizationPlugin P} (env : Environment P).

Implicit Types (self : OptimizationRunner P) (h : list event).

(** [start] with the bound 0, nobody calling [stop()]: whatever the fuel,
    the loop has not ended, and it has completed as many steps as it was
    given iterations. *)
Lemma start_zero_bound fuel self h :
  (forall h', stop_requested env h' = false) ->
  OptimizerConfig.max_steps (config self) = Some 0 ->
  is_Some (_plugin self) ->
  exists self' h',
    start env fuel self h = (None, self', h') /\
    _steps_completed self' = _steps_completed self + Z.of_nat fuel.
Proof.
  intros Hstop Hmax [plugin Hp]. unfold start. rewrite Hp.
  match goal with
  | |- context [start_loop env fuel ?s ?hh] =>
      destruct (start_loop_zero_bound env fuel s hh) as (self' & h' & Hl & Hk);
        [assumption | exact Hmax | reflexivity | cbn; eauto |]
  end.
  rewrite Hl. exists self', h'. split; [reflexivity | exact Hk].
Qed.

(** [start] with a positive bound [m] and enough fuel: the call returns,
    the session it opened is closed, and the counter of completed steps
    has not passed the bound. *)
Lemma start_positive_bound m fuel self h :
  OptimizerConfig.max_steps (config self) = Some m ->
  0 < m ->
  is_Some (_plugin self) ->
  Z.max 0 (m - _steps_completed self) < Z.of_nat fuel ->
  exists self' h',
    start env fuel self h = (Some (Ok tt), self', h') /\
    _session self' = Some {| closed := true |} /\
    _steps_completed self <= _steps_completed self' /\
    _steps_completed self' <= Z.max m (_steps_completed self).
Proof.
  intros Hmax Hm [plugin Hp] Hfuel. unfold start. rewrite Hp.
  match goal with
  | |- context [start_loop env fuel ?s ?hh] =>
      destruct (start_loop_positive_bound env m fuel s hh)
        as (self' & h' & Hl & Hlo & Hhi);
        [exact Hmax | exact Hm | cbn; eauto | exact Hfuel |]
  end.
  rewrite Hl. cbn in Hlo, Hhi.
  apply start_loop_frame in Hl. destruct Hl as [_ Hse]. cbn in Hse.
  rewrite Hse. eexists _, _. repeat split; cbn; auto.
Qed.

End Start.

(* ===================================================================== *)
(** ** The invariant of the current best *)
(* ===================================================================== *)

Section Invariant.

Context {P : Type} `{OptimizationPlugin P} (env : Environment P).

Implicit Types (self : OptimizationRunner P) (h : list event).

Lemma replaced_together_refl self : replaced_together self self.
Proof. left. auto. Qed.

Lemma replaced_together_trans self1 self2 self3 :
  replaced_together self1 self2 -> replaced_together self2 self3 ->
  replaced_together self1 self3.
Proof.
  unfold replaced_together.
  intros [[E1 E2]|[S1 S2]] [[E3 E4]|[S3 S4]]; auto.
  - left. split; congruence.
  - right. rewrite E3, E4. auto.
Qed.

Lemma replaced_together_consistent self self' :
  best_consistent self -> replaced_together self self' -> best_consistent self'.
Proof.
  unfold best_consistent, replaced_together.
  intros Hc [[-> ->]|[S1 S2]]; [exact Hc | tauto].
Qed.

Lemma __init___best_empty cfg ident :
  _current_best_params (__init__ env cfg ident) = None /\
  _current_best_performance (__init__ env cfg ident) = None.
Proof. split; reflexivity. Qed.

Lemma _optimization_step_replaces_together self h r self' h' :
  _optimization_step env self h = (r, self', h') -> replaced_together self self'.
Proof.
  unfold _optimization_step.
  destruct (_plugin self) as [plugin|].
  - destruct (optimize plugin _ _) as [plugin' outcome].
    destruct outcome as [p f| |]; cbn.
    + destruct (rejects _ _ _); [|destruct (_submit_optimae _ _ _ _)];
        intros [= <- <- <-]; [left | right]; cbn; eauto.
    + intros [= <- <- <-]; left; cbn; auto.
    + intros [= <- <- <-]; left; cbn; auto.
  - intros [= <- <- <-]. apply replaced_together_refl.
Qed.

Lemma start_loop_replaces_together fuel : forall self h r self' h',
  start_loop env fuel self h = (r, self', h') -> replaced_together self self'.
Proof.
  induction fuel as [|fuel IH]; intros self h r self' h'; cbn [start_loop].
  - intros [= <- <- <-]. apply replaced_together_refl.
  - destruct (negb (_running self));
      [intros [= <- <- <-]; apply replaced_together_refl|].
    destruct (max_steps_reached self);
      [intros [= <- <- <-]; apply replaced_together_refl|].
    destruct (_optimization_step env self h) as [[res self1] h1] eqn:Hs.
    apply _optimization_step_replaces_together in Hs.
    destruct res as [res|e]; [|intros [= <- <- <-]; exact Hs].
    intros Hl. apply IH in Hl.
    apply (replaced_together_trans _ self1); [exact Hs|].
    destruct (stop_requested env _); exact Hl.
Qed.

Lemma operation_replaces_together self self' :
  operation env self self' -> replaced_together self self'.
Proof.
  intros [s h r s' h' Hop | s plugin | fuel s h r s' h' Hop | s
         | s h r s' h' Hop | s h r s' h' Hop].
  - revert Hop. unfold load_plugin.
    destruct (load_optimization_plugin env _) as [fresh|e];
      [destruct (configure fresh _)|]; intros [= <- <- <-]; left; cbn; auto.
  - left; cbn; auto.
  - revert Hop. unfold start.
    destruct (_plugin s); [|intros [= <- <- <-]; apply replaced_together_refl].
    match goal with
    | |- context [start_loop env fuel ?s0 ?h0] =>
        destruct (start_loop env fuel s0 h0) as [[r0 s1] h1] eqn:Hl
    end.
    apply start_loop_replaces_together in Hl.
    destruct r0 as [r0|]; [destruct (_session s1)|];
      intros [= <- <- <-]; exact Hl.
  - left; cbn; auto.
  - revert Hop. unfold run_single_step.
    destruct (_plugin s);
      [apply _optimization_step_replaces_together
      |intros [= <- <- <-]; apply replaced_together_refl].
  - exact (_optimization_step_replaces_together _ _ _ _ _ Hop).
Qed.

Lemma reachable_best_consistent self :
  reachable env self -> best_consistent self.
Proof.
  induction 1 as [cfg ident | self self' _ IH Hop].
  - unfold best_consistent. cbn. split; intros [x [=]].
  - exact (replaced_together_consistent _ _ IH (operation_replaces_together _ _ Hop)).
Qed.

(** C9. In every state the runner can reach, the current-best parameters
    and the current-best performance are both [None] or both set; they
    are both [None] after [__init__] (the first state reached), and every
    operation ([load_plugin], [set_plugin], [start], [stop],
    [run_single_step], [_optimization_step]) leaves the pair unchanged or
    replaces both halves together, so that the invariant holds again
    after it. *)
Theorem best_pair_invariant self self' :
  reachable env self ->
  operation env self self' ->
  (forall cfg ident,
      _current_best_params (__init__ env cfg ident) = None /\
      _current_best_performance (__init__ env cfg ident) = None) /\
  best_consistent self /\
  replaced_together self self' /\
  best_consistent self'.
Proof.
  intros Hreach Hop. split; [exact __init___best_empty|].
  pose proof (reachable_best_consistent _ Hreach) as Hc.
  pose proof (operation_replaces_together _ _ Hop) as Hr.
  split; [exact Hc | split; [exact Hr |]].
  exact (replaced_together_consistent self self' Hc Hr).
Qed.

End Invariant.

(* ===================================================================== *)
(** ** The tests of [tests/test_runner.py] *)
(* ===================================================================== *)

Example test_single_step_first_improvement :
  let result := optimae_of (fst (fst (run_single_step (quiet_env _ (Response 200))
                                       (make_runner (Response 200)) []))) in
  Optimae.domain_id result = "test-domain" /\
  Optimae.reported_performance result = F64.lit_0_55 /\
  Optimae.parameters result = {[ "w" := PyInt 1; "bias" := PyFloat F64.lit_0_1 ]} /\
  Optimae.performance_increment result = F64.zero.
Proof. vm_compute. repeat split. Qed.

Example test_multiple_steps_track_improvements :
  let r2 := optimae_of (fst (fst (second_step (Response 200)))) in
  Optimae.reported_performance r2 = F64.lit_0_60 /\
  Optimae.performance_increment r2 = S754_finite false 7205759403792784 (-57).
Proof. vm_compute. repeat split. Qed.

Example test_no_improvement_returns_none :
  fst (fst (run_single_step (quiet_env _ (Response 200))
              (fst after_flat_step) (snd after_flat_step))) = Ok None.
Proof. vm_compute. reflexivity. Qed.

Example test_stats :
  let self := snd (fst (second_step (Response 200))) in
  stats self !! "domain_id" = Some (PyStr "test-domain") /\
  stats self !! "improvements_found" = Some (PyInt 2) /\
  stats self !! "current_best_performance" = Some (PyFloat F64.lit_0_60).
Proof. vm_compute. repeat split. Qed.

Example test_plugin_not_loaded_raises :
  fst (fst (run_single_step (quiet_env MockOptimizer.t (Response 200))
              (__init__ (quiet_env _ (Response 200))
                 (OptimizerConfig.default "d1" "x") None) []))
  = Raise (RuntimeError "Plugin not loaded").
Proof. reflexivity. Qed.

(* ===================================================================== *)
(** ** Where the runner departs from its contract *)
(* ===================================================================== *)

(** C1. The runner on a diverging run in a higher-is-better domain: the
    first step sets the best to 0.5; the second candidate has the
    performance NaN, which is not greater than 0.5, and the step accepts
    it all the same: it returns the Optimae, the best becomes NaN and the
    counter of improvements 2. Both [return None] of the test compare
    with [<=] and [>=], which are false on NaN. *)
Theorem nan_candidate_is_accepted :
  let env := quiet_env ScriptedOptimizer.t (Response 200) in
  let self0 := diverging_runner {[ "higher_is_better" := PyBool true ]} in
  let '(_, self1, h1) := run_single_step env self0 [] in
  let '(res, self2, _) := run_single_step env self1 h1 in
  _current_best_performance self1 = Some F64.lit_0_5 /\
  F64.gt F64.nan F64.lit_0_5 = false /\
  res = Ok (Some (optimae_of res)) /\
  Optimae.reported_performance (optimae_of res) = F64.nan /\
  _current_best_performance self2 = Some F64.nan /\
  _improvements_found self2 = 2.
Proof. vm_compute. repeat split. Qed.

(** C10. The same run with metadata that lack the key
    [higher_is_better]: the domain is read as higher is better (0.5 after
    0.5 is rejected by [<=], see [missing_key_is_higher]), and the NaN
    candidate, which does not exceed the best 0.5, is accepted. *)
Theorem nan_candidate_is_accepted_by_default :
  let env := quiet_env ScriptedOptimizer.t (Response 200) in
  let metadata : gmap string pyval := {[ "performance_metric" := PyStr "accuracy" ]} in
  let self0 := diverging_runner metadata in
  let '(_, self1, h1) := run_single_step env self0 [] in
  let '(res, self2, _) := run_single_step env self1 h1 in
  metadata !! "higher_is_better" = None /\
  _current_best_performance self1 = Some F64.lit_0_5 /\
  rejects (ScriptedOptimizer.mk [] metadata) (Some F64.lit_0_5) F64.lit_0_5 = true /\
  F64.gt F64.nan F64.lit_0_5 = false /\
  res = Ok (Some (optimae_of res)) /\
  Optimae.reported_performance (optimae_of res) = F64.nan /\
  _current_best_performance self2 = Some F64.nan.
Proof. vm_compute. repeat split. Qed.

(** C2. [start] on the runner of the tests with a bound of two steps and
    a node that answers 200: before the first step there is no best, and
    the two announcements carry as previous best 0.55 and 0.60, the
    performances they report themselves, where the best held before each
    acceptance was none and 0.55. *)
Theorem announced_previous_best_is_the_new_one :
  let env := quiet_env MockOptimizer.t (Response 200) in
  let self :=
    set_plugin (__init__ env (with_max_steps test_config (Some 2)) None)
      MockOptimizer.new in
  _current_best_performance self = None /\
  fst (fst (start env 4 self [])) = Some (Ok tt) /\
  map (fun m => (OptimaeAnnouncement.reported_performance (Message.payload m),
                 OptimaeAnnouncement.previous_best_performance (Message.payload m)))
      (posted (snd (start env 4 self [])))
  = [ (F64.lit_0_55, Some F64.lit_0_55); (F64.lit_0_60, Some F64.lit_0_60) ].
Proof. vm_compute. repeat split. Qed.

(** C5. [start] with [max_steps = 0] on the runner of
    [test_no_improvement_returns_none], nobody calling [stop()]: after
    any number [n] of iterations the loop has not ended and [n] steps are
    completed, beyond the bound of 0 steps. The bound is tested for truth
    before it is compared, and 0 is false. *)
Theorem zero_max_steps_never_ends (n : nat) :
  let env := quiet_env MockNoImprovementOptimizer.t (Response 200) in
  let self :=
    set_plugin (__init__ env (with_max_steps test_config (Some 0)) None)
      MockNoImprovementOptimizer.new in
  exists self' h',
    start env n self [] = (None, self', h') /\
    _steps_completed self' = Z.of_nat n.
Proof.
  cbv zeta.
  match goal with
  | |- context [start ?env n ?s []] =>
      destruct (start_zero_bound env n s []) as (self' & h' & Hs & Hk)
  end; [reflexivity | reflexivity | cbn; eauto |].
  exists self', h'. split; [exact Hs | exact Hk].
Qed.


(* ===================================================================== *)
(** ** The theorems at concrete inputs *)
(* ===================================================================== *)

(** [accepted_increment] at the second step of the tests: the best was
    0.55, the candidate is 0.60, the increment is the binary64 value of
    [abs(0.60 - 0.55)]. *)
Lemma accepted_increment_witness :
  let env := quiet_env MockOptimizer.t (Response 200) in
  let self := fst (after_first_step (Response 200)) in
  let h := snd (after_first_step (Response 200)) in
  let o := optimae_of (fst (fst (second_step (Response 200)))) in
  _optimization_step env self h =
    (Ok (Some o), snd (fst (second_step (Response 200))), snd (second_step (Response 200))) /\
  Optimae.performance_increment o =
    match _current_best_performance self with
    | None => F64.zero
    | Some previous_best =>
        F64.abs (F64.sub (Optimae.reported_performance o) previous_best)
    end.
Proof.
  cbv zeta.
  assert (Hstep :
    _optimization_step (quiet_env MockOptimizer.t (Response 200))
      (fst (after_first_step (Response 200))) (snd (after_first_step (Response 200))) =
    (Ok (Some (optimae_of (fst (fst (second_step (Response 200)))))),
     snd (fst (second_step (Response 200))), snd (second_step (Response 200))))
    by (vm_compute; reflexivity).
  split; [exact Hstep|].
  exact (proj2 (accepted_increment _ _ _ _ _ _ Hstep)).
Defined.


(** [unaccepted_step_is_none] on the second step of
    [test_no_improvement_returns_none]: the candidate 0.5 against the
    best 0.5 is rejected. *)
Lemma unaccepted_step_is_none_witness :
  let env := quiet_env MockNoImprovementOptimizer.t (Response 200) in
  let self := fst after_flat_step in
  let h := snd after_flat_step in
  _current_best_performance self = Some F64.lit_0_5 /\
  exists self' h',
    run_single_step env self h = (Ok None, self', h') /\
    _optimization_step env self h = (Ok None, self', h') /\
    _current_best_params self' = _current_best_params self /\
    _current_best_performance self' = _current_best_performance self /\
    _improvements_found self' = _improvements_found self.
Proof.
  cbv zeta. split; [reflexivity|].
  apply (unaccepted_step_is_none (quiet_env MockNoImprovementOptimizer.t (Response 200))
           (fst after_flat_step) (snd after_flat_step)
           MockNoImprovementOptimizer.new MockNoImprovementOptimizer.new
           (Returned {[ "w" := PyInt 1 ]} F64.lit_0_5)).
  - reflexivity.
  - reflexivity.
  - right. right. eexists _, _. split; reflexivity.
Defined.

(** [accepted_is_kept] on the first step of the tests in a running loop
    whose node answers 500: the submission fails ([ok] is false), and
    the best is the candidate 0.55 with one improvement counted. *)
Lemma accepted_is_kept_witness :
  let env := quiet_env MockOptimizer.t (Response 500) in
  let self := make_open_runner (Response 500) in
  exists o self' h' h_submit,
    _optimization_step env self [] = (Ok (Some o), self', h') /\
    _submit_optimae env self' [] o = (false, h_submit) /\
    Optimae.reported_performance o = F64.lit_0_55 /\
    _current_best_performance self' = Some F64.lit_0_55 /\
    _improvements_found self' = 1.
Proof.
  cbv zeta.
  destruct (accepted_is_kept (quiet_env MockOptimizer.t (Response 500))
              (make_open_runner (Response 500)) []
              MockOptimizer.new (MockOptimizer.mk 1 false)
              {[ "w" := PyInt 1; "bias" := PyFloat F64.lit_0_1 ]} F64.lit_0_55)
    as (o & self' & h' & ok & h_submit & Hstep & _ & Hsub & _ & _ & Hperf & _ & Hbest & Hcount).
  - reflexivity.
  - vm_compute. reflexivity.
  - reflexivity.
  - exists o, self', h', h_submit.
    vm_compute in Hstep. injection Hstep as <- <- <-.
    vm_compute in Hsub. injection Hsub as <- <-.
    repeat split.
Defined.

(** [unbound_runner_raises] on the runner of
    [test_plugin_not_loaded_raises]. *)
Lemma unbound_runner_raises_witness :
  let env := quiet_env MockOptimizer.t (Response 200) in
  let self := __init__ env (OptimizerConfig.default "d1" "x") None in
  _plugin self = None /\
  run_single_step env self [] = (Raise (RuntimeError "Plugin not loaded"), self, []) /\
  start env 10 self [] =
    (Some (Raise (RuntimeError
                    "Plugin not loaded — call load_plugin() or set_plugin() first")),
     self, []) /\
  forall plugin, exists res self' h',
    run_single_step env (set_plugin self plugin) [] = (Ok res, self', h').
Proof.
  cbv zeta. split; [reflexivity|].
  apply (unbound_runner_raises (quiet_env MockOptimizer.t (Response 200))
           (__init__ (quiet_env MockOptimizer.t (Response 200))
              (OptimizerConfig.default "d1" "x") None) [] 10).
  reflexivity.
Defined.

(** [best_pair_invariant] on the runner of the tests and its first
    step. *)
Lemma best_pair_invariant_witness :
  let env := quiet_env MockOptimizer.t (Response 200) in
  let self := make_runner (Response 200) in
  let self' := fst (after_first_step (Response 200)) in
  reachable env self /\
  operation env self self' /\
  best_consistent self /\
  replaced_together self self' /\
  best_consistent self'.
Proof.
  cbv zeta.
  assert (Hreach : reachable (quiet_env MockOptimizer.t (Response 200))
                     (make_runner (Response 200))).
  { apply (reach_op _ (__init__ (quiet_env _ (Response 200)) test_config None)).
    - apply reach_init.
    - apply op_set_plugin. }
  assert (Hop : operation (quiet_env MockOptimizer.t (Response 200))
                  (make_runner (Response 200)) (fst (after_first_step (Response 200)))).
  { apply (op_run_single_step _ (make_runner (Response 200)) []
             (fst (fst (run_single_step (quiet_env _ (Response 200))
                          (make_runner (Response 200)) [])))
             _ (snd (after_first_step (Response 200)))).
    vm_compute. reflexivity. }
  split; [exact Hreach|]. split; [exact Hop|].
  exact (proj2 (best_pair_invariant _ _ _ Hreach Hop)).
Defined.

(* ===================================================================== *)
(** ** What a step and the loop add to the history *)
(* ===================================================================== *)

Lemma count_events_app (p : event -> bool) (h1 h2 : list event) :
  count_events p (h1 ++ h2) = (count_events p h1 + count_events p h2)%nat.
Proof. unfold count_events. now rewrite List.filter_app, List.length_app. Qed.

Section History.

Context {P : Type} `{OptimizationPlugin P} (env : Environment P).

Implicit Types (self : OptimizationRunner P) (h : list event).

Lemma quiet_nil : quiet [].
Proof. repeat split. Qed.

Lemma quiet_log lv fmt args : quiet [Log lv fmt args].
Proof. repeat split. Qed.

Lemma quiet_app t1 t2 : quiet t1 -> quiet t2 -> quiet (t1 ++ t2).
Proof.
  unfold quiet. intros (A1 & B1 & C1) (A2 & B2 & C2).
  rewrite !count_events_app. lia.
Qed.

(** A submission adds log records and, through an open session, one
    request. *)
Lemma _submit_optimae_history self h o :
  exists tail,
    snd (_submit_optimae env self h o) = h ++ tail /\
    quiet tail /\
    length (posted tail) = if session_is_open self then 1%nat else 0%nat.
Proof.
  unfold _submit_optimae, session_post, session_is_open.
  destruct (_session self) as [s|]; [|eexists [_]; repeat split].
  destruct (closed s); cbn [negb]; [eexists [_]; repeat split|].
  destruct (node_reply env h _ _) as [status|]; cbn.
  - destruct (status =? 200); cbn.
    + eexists [_]. repeat split.
    + rewrite <- app_assoc. eexists [_; _]. repeat split.
  - rewrite <- app_assoc. eexists [_; _]. repeat split.
Qed.

(** A step adds no sleep and no session event; through an open session
    it sends as many requests as it counts improvements, one at most, and
    otherwise none. *)
Lemma _optimization_step_history self h r self' h' :
  _optimization_step env self h = (r, self', h') ->
  exists tail,
    h' = h ++ tail /\
    quiet tail /\
    Z.of_nat (length (posted tail)) =
      (if session_is_open self
       then _improvements_found self' - _improvements_found self else 0) /\
    0 <= _improvements_found self' - _improvements_found self <= 1.
Proof.
  unfold _optimization_step.
  destruct (_plugin self) as [plugin|].
  2:{ intros [= <- <- <-]. exists []. rewrite app_nil_r.
      destruct (session_is_open self); repeat split; cbn; lia. }
  destruct (optimize plugin _ _) as [plugin' outcome].
  destruct outcome as [p f| |]; cbn.
  - destruct (rejects _ _ _).
    + intros [= <- <- <-]. exists []. rewrite app_nil_r. cbn.
      destruct (session_is_open _); repeat split; cbn; lia.
    + match goal with
      | |- context [_submit_optimae env ?s h ?o] =>
          destruct (_submit_optimae_history s h o) as (tail & Ht & Hq & Hp);
          destruct (_submit_optimae env s h o) as [ok hs]
      end.
      cbn in Ht. subst hs. intros [= <- <- <-].
      eexists (tail ++ [_]). rewrite app_assoc. split; [reflexivity|].
      split; [apply quiet_app; [exact Hq | apply quiet_log]|].
      unfold session_is_open in *. cbn in *.
      rewrite posted_app, List.length_app, Hp. cbn.
      destruct (_session self) as [s|]; [destruct (closed s)|]; cbn; lia.
  - intros [= <- <- <-]. exists []. rewrite app_nil_r. cbn.
    destruct (session_is_open _); repeat split; cbn; lia.
  - intros [= <- <- <-]. eexists [_]. cbn.
    destruct (session_is_open _); repeat split; cbn; lia.
Qed.

End History.

Section LoopHistory.

Context {P : Type} `{OptimizationPlugin P} (env : Environment P).

Implicit Types (self : OptimizationRunner P) (h : list event).

Lemma session_is_open_frame self self' :
  _session self' = _session self -> session_is_open self' = session_is_open self.
Proof. unfold session_is_open. now intros ->. Qed.

(** A step raises only on a runner without a plugin. *)
Lemma _optimization_step_raises self h e self' h' :
  _optimization_step env self h = (Raise e, self', h') -> _plugin self = None.
Proof.
  intros Hs. destruct (_plugin self) as [plugin|] eqn:Hp; [|reflexivity].
  destruct (_optimization_step_returns env self h) as (res & s & hh & Hok);
    [rewrite Hp; eauto|].
  rewrite Hok in Hs. discriminate.
Qed.

(** What the loop adds to the history, whether it ends or not: no session
    event, one sleep for every completed step and, through an open
    session, one request for every counted improvement. With a plugin
    bound it raises nothing. *)
Lemma start_loop_history fuel : forall self h r self' h',
  start_loop env fuel self h = (r, self', h') ->
  exists tail,
    h' = h ++ tail /\
    count_events is_session_opened tail = 0%nat /\
    count_events is_session_closed tail = 0%nat /\
    Z.of_nat (count_events is_sleep tail) =
      _steps_completed self' - _steps_completed self /\
    Z.of_nat (length (posted tail)) =
      (if session_is_open self
       then _improvements_found self' - _improvements_found self else 0) /\
    0 <= _improvements_found self' - _improvements_found self /\
    (is_Some (_plugin self) -> r = None \/ r = Some (Ok tt)).
Proof.
  induction fuel as [|fuel IH]; intros self h r self' h'; cbn [start_loop].
  - intros [= <- <- <-]. exists []. rewrite app_nil_r.
    destruct (session_is_open self); cbn; repeat split; auto; lia.
  - destruct (negb (_running self)).
    { intros [= <- <- <-]. exists []. rewrite app_nil_r.
      destruct (session_is_open self); cbn; repeat split; auto; lia. }
    destruct (max_steps_reached self).
    { intros [= <- <- <-]. eexists [_]. split; [reflexivity|].
      destruct (session_is_open self); cbn; repeat split; auto; lia. }
    destruct (_optimization_step env self h) as [[res self1] h1] eqn:Hs.
    destruct (_optimization_step_frame env _ _ _ _ _ Hs)
      as (Hc & _ & Hse & _ & Hn & Hp1).
    destruct (_optimization_step_history env _ _ _ _ _ Hs)
      as (t1 & -> & (Q1 & Q2 & Q3) & Hposts & Himp).
    destruct res as [res|e].
    2:{ intros [= <- <- <-]. exists t1.
        repeat split; auto; try lia.
        intros [plugin Hp]. apply _optimization_step_raises in Hs. congruence. }
    intros Hl. apply IH in Hl.
    destruct Hl as (t2 & -> & O2 & C2 & S2 & P2 & I2 & R2).
    assert (Hopen : session_is_open
                      (if stop_requested env
                            ((h ++ t1) ++
                             [Sleep (OptimizerConfig.optimization_interval
                                       (config (set__steps_completed self1
                                                  (_steps_completed self1 + 1))))])
                       then stop (set__steps_completed self1 (_steps_completed self1 + 1))
                       else set__steps_completed self1 (_steps_completed self1 + 1))
                    = session_is_open self).
    { apply session_is_open_frame. destruct (stop_requested env _); cbn; exact Hse. }
    rewrite Hopen in P2.
    eexists (t1 ++ [_] ++ t2). rewrite !app_assoc. split; [reflexivity|].
    rewrite <- !app_assoc. rewrite !count_events_app, !posted_app, !List.length_app.
    cbn [count_events List.filter is_session_opened is_session_closed is_sleep
         length posted omap app].
    change (length (posted [Sleep _])) with 0%nat.
    destruct (stop_requested env _); cbn in S2, P2, I2, R2;
      (split; [lia|]; split; [lia|]; split; [lia|];
       split; [destruct (session_is_open self); lia|];
       split; [lia|]; intros Hp; apply R2; auto).
Qed.

End LoopHistory.

(* ===================================================================== *)
(** ** [start]: the session, the counters, [stop] *)
(* ===================================================================== *)

Section StartFacts.

Context {P : Type} `{OptimizationPlugin P} (env : Environment P).

Implicit Types (self : OptimizationRunner P) (h : list event).

(** X2. A call of [start] that returns has opened one session and closed
    one: the history gains one opening and one closing, the closing is
    its last event, and the session the runner is left with is closed. *)
Theorem start_closes_its_session fuel self h r self' h' :
  is_Some (_plugin self) ->
  start env fuel self h = (Some r, self', h') ->
  count_events is_session_opened h' = S (count_events is_session_opened h) /\
  count_events is_session_closed h' = S (count_events is_session_closed h) /\
  last h' = Some SessionClosed /\
  _session self' = Some {| closed := true |}.
Proof.
  intros [plugin Hp]. unfold start. rewrite Hp.
  match goal with
  | |- context [start_loop env fuel ?s ?hh] =>
      destruct (start_loop env fuel s hh) as [[r0 s1] h1] eqn:Hl
  end.
  pose proof (start_loop_frame env _ _ _ _ _ _ Hl) as [_ Hse]. cbn in Hse.
  apply start_loop_history in Hl.
  destruct Hl as (tail & -> & Ho & Hc & _).
  destruct r0 as [r0|]; [|discriminate].
  rewrite Hse. intros [= <- <- <-].
  rewrite !count_events_app, Ho, Hc. cbn.
  rewrite last_snoc. repeat split; lia.
Qed.

(** X3. Over a call of [start], returned or still running, the counter
    of improvements grows by the number of calls of [session.post]: the
    runner submits every accepted candidate of the loop by one call, and
    makes no other call. *)
Theorem start_posts_once_per_improvement fuel self h r self' h' :
  start env fuel self h = (r, self', h') ->
  Z.of_nat (length (posted h')) - Z.of_nat (length (posted h)) =
    _improvements_found self' - _improvements_found self.
Proof.
  unfold start. destruct (_plugin self) as [plugin|].
  2:{ intros [= <- <- <-]. lia. }
  match goal with
  | |- context [start_loop env fuel ?s ?hh] =>
      destruct (start_loop env fuel s hh) as [[r0 s1] h1] eqn:Hl
  end.
  apply start_loop_history in Hl.
  destruct Hl as (tail & -> & _ & _ & _ & Hposts & _). cbn in Hposts.
  destruct r0 as [r0|]; [destruct (_session s1)|]; intros [= <- <- <-];
    rewrite ?posted_app, ?List.length_app; cbn; lia.
Qed.

(** X4. Over a call of [start], the counter of completed steps grows by
    the number of sleeps: the loop sleeps once after every step, accepted
    or not, and also after the last one. *)
Theorem start_sleeps_once_per_step fuel self h r self' h' :
  start env fuel self h = (r, self', h') ->
  Z.of_nat (count_events is_sleep h') - Z.of_nat (count_events is_sleep h) =
    _steps_completed self' - _steps_completed self.
Proof.
  unfold start. destruct (_plugin self) as [plugin|].
  2:{ intros [= <- <- <-]. lia. }
  match goal with
  | |- context [start_loop env fuel ?s ?hh] =>
      destruct (start_loop env fuel s hh) as [[r0 s1] h1] eqn:Hl
  end.
  apply start_loop_history in Hl.
  destruct Hl as (tail & -> & _ & _ & Hsleeps & _). cbn in Hsleeps.
  destruct r0 as [r0|]; [destruct (_session s1)|]; intros [= <- <- <-];
    rewrite ?count_events_app; cbn; lia.
Qed.

(** X5. A [stop()] before [start()] is lost: with a plugin bound,
    [start] sets the running flag itself, so the call behaves as if
    [stop] had not been called. *)
Theorem stop_before_start_is_lost fuel self h :
  is_Some (_plugin self) ->
  start env fuel (stop self) h = start env fuel self h.
Proof.
  intros [plugin Hp]. destruct self. cbn in Hp. subst. reflexivity.
Qed.


End StartFacts.

(* ===================================================================== *)
(** ** Single steps, the network and the bound *)
(* ===================================================================== *)

Section RunnerFacts.

Context {P : Type} `{OptimizationPlugin P} (env : Environment P).

Implicit Types (self : OptimizationRunner P) (h : list event).

(** X7. [run_single_step] changes neither the configuration, the
    identity, the session, the running flag nor the counter of completed
    steps, whatever it returns or raises: steps taken outside the loop
    are not counted as completed. *)
Theorem run_single_step_frame self h r self' h' :
  run_single_step env self h = (r, self', h') ->
  config self' = config self /\ identity self' = identity self /\
  _session self' = _session self /\ _running self' = _running self /\
  _steps_completed self' = _steps_completed self.
Proof.
  unfold run_single_step. destruct (_plugin self).
  - intros Hs. apply _optimization_step_frame in Hs. tauto.
  - intros [= <- <- <-]. auto.
Qed.

(** X8. A runner without an open session sends nothing: on a runner that
    was never started, or whose session is closed, [run_single_step]
    leaves the list of requests as it was, also when it accepts the
    candidate. *)
Theorem no_open_session_no_request self h r self' h' :
  session_is_open self = false ->
  run_single_step env self h = (r, self', h') ->
  posted h' = posted h.
Proof.
  intros Hclosed. unfold run_single_step. destruct (_plugin self) eqn:Hp.
  - intros Hs. apply _optimization_step_history in Hs.
    destruct Hs as (tail & -> & _ & Hposts & _). rewrite Hclosed in Hposts.
    rewrite posted_app. destruct (posted tail); [apply app_nil_r|discriminate].
  - intros [= <- <- <-]. reflexivity.
Qed.

(** X9. Once [start] has returned, the runner is cut off from the node:
    a later [run_single_step] still steps, but sends nothing. *)
Theorem finished_runner_sends_nothing fuel self h r1 self1 h1 r2 self2 h2 :
  is_Some (_plugin self) ->
  start env fuel self h = (Some r1, self1, h1) ->
  run_single_step env self1 h1 = (r2, self2, h2) ->
  posted h2 = posted h1.
Proof.
  intros Hp Hstart Hstep.
  assert (Hclosed : session_is_open self1 = false).
  { unfold session_is_open.
    unfold start in Hstart. destruct Hp as [plugin Hp]. rewrite Hp in Hstart.
    match type of Hstart with
    | context [start_loop env fuel ?s ?hh] =>
        destruct (start_loop env fuel s hh) as [[r0 s1] hh1] eqn:Hl
    end.
    pose proof (start_loop_frame env _ _ _ _ _ _ Hl) as [_ Hse]. cbn in Hse.
    destruct r0 as [r0|]; [|discriminate].
    rewrite Hse in Hstart. injection Hstart as <- <- <-. reflexivity. }
  revert Hstep. unfold run_single_step. destruct (_plugin self1).
  - intros Hs. apply _optimization_step_history in Hs.
    destruct Hs as (tail & -> & _ & Hposts & _). rewrite Hclosed in Hposts.
    rewrite posted_app. destruct (posted tail); [apply app_nil_r|discriminate].
  - intros [= <- <- <-]. reflexivity.
Qed.


(** X11. The default of [higher_is_better] applies to a missing key
    only. Metadata that hold a false value under the key ([None], [False],
    [0], [0.0], the empty string) make the domain lower-is-better:
    between numbers, the candidate passes the test iff its performance is
    strictly below the current best. *)
Theorem present_false_value_is_lower_is_better (plugin : P) v best new_performance :
  get_domain_metadata plugin !! "higher_is_better" = Some v ->
  truthy v = false ->
  F64.is_nan new_performance = false -> F64.is_nan best = false ->
  rejects plugin (Some best) new_performance = negb (F64.lt new_performance best).
Proof.
  intros Hkey Hv Hn Hb.
  rewrite rejects_lower, ge_number_not_lt by
    (try assumption; unfold direction, dict_get; rewrite Hkey; exact Hv).
  reflexivity.
Qed.

(** X12. [start] on a runner whose counter of completed steps has
    reached a bound other than 0 (a second [start], or a negative bound)
    calls the plugin not once: it opens the session, logs the start and
    the bound, closes the session and returns, the counters and the best
    pair as they were. *)
Theorem reached_bound_runs_no_step fuel self h m :
  OptimizerConfig.max_steps (config self) = Some m ->
  m <> 0 ->
  m <= _steps_completed self ->
  is_Some (_plugin self) ->
  exists self',
    start env (S fuel) self h =
      (Some (Ok tt), self',
       h ++ [SessionOpened F64.lit_30_0;
             Log INFO "Optimizer starting: domain=%s, node=%s"
               [PyStr (OptimizerConfig.domain_id (config self));
                PyStr (OptimizerConfig.node_endpoint (config self))];
             Log INFO "Max steps reached (%d)" [PyInt m];
             SessionClosed]) /\
    _plugin self' = _plugin self /\
    _steps_completed self' = _steps_completed self /\
    _improvements_found self' = _improvements_found self /\
    _current_best_params self' = _current_best_params self /\
    _current_best_performance self' = _current_best_performance self.
Proof.
  intros Hmax Hm Hsteps [plugin Hp]. unfold start. rewrite Hp.
  cbn [start_loop _running set__running negb].
  assert (Hreach : forall s : OptimizationRunner P,
             config s = config self -> _steps_completed s = _steps_completed self ->
             max_steps_reached s = true).
  { intros s Hc Hn. unfold max_steps_reached. rewrite Hc, Hmax, Hn. cbn.
    apply andb_true_intro. split.
    - apply negb_true_iff, Z.eqb_neq. exact Hm.
    - rewrite Z.geb_leb. apply Z.leb_le. exact Hsteps. }
  rewrite Hreach by reflexivity.
  cbn [_session set__running set__session config]. rewrite Hmax. cbn.
  eexists. rewrite <- !app_assoc. cbn. repeat split. exact Hp.
Qed.


(** X14. The request of an accepted step through an open session goes to
    [http://<node_endpoint>/message], is answered by the node, and its
    envelope names the runner: the sender and the optimizer of the record
    are the peer id, the domain is the configured one, and the optimae
    id, the parameters and the reported performance are those of the
    record returned to the caller. *)
Theorem announcement_envelope self h o self' h' :
  session_is_open self = true ->
  _optimization_step env self h = (Ok (Some o), self', h') ->
  exists body rest,
    let url := "http://" +:+ OptimizerConfig.node_endpoint (config self) +:+ "/message" in
    h' = h ++ Post url body (node_reply env h url body) :: rest /\
    posted rest = [] /\
    Message.msg_type body = OPTIMAE_ANNOUNCEMENT /\
    Message.sender_id body = peer_id (identity self) /\
    Optimae.optimizer_id o = peer_id (identity self) /\
    Optimae.domain_id o = OptimizerConfig.domain_id (config self) /\
    OptimaeAnnouncement.domain_id (Message.payload body) = Optimae.domain_id o /\
    OptimaeAnnouncement.optimae_id (Message.payload body) = Optimae.id o /\
    OptimaeAnnouncement.parameters (Message.payload body) = Optimae.parameters o /\
    OptimaeAnnouncement.reported_performance (Message.payload body)
      = Optimae.reported_performance o.
Proof.
  unfold session_is_open. destruct (_session self) as [s|] eqn:Hs; [|discriminate].
  destruct (closed s) eqn:Hc; [discriminate|]. intros _.
  unfold _optimization_step.
  destruct (_plugin self) as [plugin|]; [|discriminate].
  destruct (optimize plugin _ _) as [plugin' outcome].
  destruct outcome as [p f| |]; cbn; try discriminate.
  destruct (rejects _ _ _); [discriminate|].
  unfold _submit_optimae, session_post, runner_peer_id. cbn. rewrite Hs, Hc.
  match goal with
  | |- context [node_reply env h ?u ?b] =>
      destruct (node_reply env h u b) as [status|] eqn:Hr
  end.
  - destruct (status =? 200); cbn; intros [= <- <- <-]; cbn;
      rewrite <- ?app_assoc; cbn;
      match type of Hr with node_reply env h _ ?b = _ => exists b end;
      rewrite Hr; eexists; repeat split.
  - intros [= <- <- <-]; cbn. rewrite <- ?app_assoc; cbn.
    match type of Hr with node_reply env h _ ?b = _ => exists b end.
    rewrite Hr. eexists; repeat split.
Qed.

End RunnerFacts.

Section Monotone.

Context {P : Type} `{OptimizationPlugin P} (env : Environment P).

Implicit Types (self : OptimizationRunner P) (h : list event).

(** X15. No operation of the runner goes back: a best pair that is set
    stays set (nothing resets it, neither [load_plugin] nor a new
    [start]), and the counters of completed steps and of improvements
    never decrease. *)
Theorem operations_never_go_back self self' :
  operation env self self' ->
  (is_Some (_current_best_params self) -> is_Some (_current_best_params self')) /\
  (is_Some (_current_best_performance self) ->
   is_Some (_current_best_performance self')) /\
  _steps_completed self <= _steps_completed self' /\
  _improvements_found self <= _improvements_found self'.
Proof.
  intros Hop.
  pose proof (operation_replaces_together env _ _ Hop) as Hbest.
  split; [destruct Hbest as [[-> _]|[? _]]; auto|].
  split; [destruct Hbest as [[_ ->]|[_ ?]]; auto|].
  destruct Hop as [s h r s' h' Hop | s plugin | fuel s h r s' h' Hop | s
                  | s h r s' h' Hop | s h r s' h' Hop].
  - revert Hop. unfold load_plugin.
    destruct (load_optimization_plugin env _) as [fresh|e];
      [destruct (configure fresh _)|]; intros [= <- <- <-]; cbn; lia.
  - cbn. lia.
  - revert Hop. unfold start.
    destruct (_plugin s); [|intros [= <- <- <-]; lia].
    match goal with
    | |- context [start_loop env fuel ?s0 ?h0] =>
        destruct (start_loop env fuel s0 h0) as [[r0 s1] h1] eqn:Hl
    end.
    apply start_loop_history in Hl.
    destruct Hl as (tail & _ & _ & _ & Hsteps & _ & Himp & _). cbn in Hsteps, Himp.
    destruct r0 as [r0|]; [destruct (_session s1)|];
      intros [= <- <- <-]; cbn; lia.
  - cbn. lia.
  - revert Hop. unfold run_single_step.
    destruct (_plugin s); [|intros [= <- <- <-]; lia].
    intros Hs.
    pose proof (_optimization_step_frame env _ _ _ _ _ Hs) as (_ & _ & _ & _ & Hn & _).
    apply _optimization_step_history in Hs.
    destruct Hs as (tail & _ & _ & _ & Himp). lia.
  - pose proof (_optimization_step_frame env _ _ _ _ _ Hop) as (_ & _ & _ & _ & Hn & _).
    apply _optimization_step_history in Hop.
    destruct Hop as (tail & _ & _ & _ & Himp). lia.
Qed.

End Monotone.

(* ===================================================================== *)
(** ** [run_optimizer] *)
(* ===================================================================== *)

Section CliFacts.

Context {P : Type} `{OptimizationPlugin P}
  (fs : FileSystem) (loop : EventLoop) (env : Environment P).

(** [load_plugin] returns normally with one record logged, and raises
    with none. *)
Lemma load_plugin_ok (self : OptimizationRunner P) h self' h' :
  load_plugin env self h = (Ok tt, self', h') ->
  exists fmt args, h' = h ++ [Log INFO fmt args].
Proof.
  unfold load_plugin.
  destruct (load_optimization_plugin env _) as [fresh|e]; [|discriminate].
  destruct (configure fresh _) as [configured|e]; [|discriminate].
  intros [= _ <-]. eauto.
Qed.

Lemma load_plugin_raise (self : OptimizationRunner P) h e self' h' :
  load_plugin env self h = (Raise e, self', h') -> h' = h.
Proof.
  unfold load_plugin.
  destruct (load_optimization_plugin env _) as [fresh|e0];
    [destruct (configure fresh _) as [configured|e1]|]; intros [= _ _ <-];
    reflexivity.
Qed.

(** X17. When [run_optimizer] raises from its set-up, that is from
    reading one of the two files, from [load_plugin] or from
    [add_signal_handler], no session has been opened and [session.post]
    has not been called; and unless it is [add_signal_handler] that
    raised, which comes after the record of the loaded plugin, nothing
    has been logged either: the history is as it was. *)
Theorem run_optimizer_setup_failure fuel args h e runner h' :
  run_optimizer fs loop env fuel args h = (CliRaised e, runner, h') ->
  (forall e0, e <> LoopError e0) ->
  count_events is_session_opened h' = count_events is_session_opened h /\
  posted h' = posted h /\
  ((exists sig, e = SignalError sig) \/ h' = h).
Proof.
  unfold run_optimizer.
  destruct (match Namespace.plugin_config args with
            | Some path => _ | None => _ end) as [e0|plugin_config].
  { intros [= _ _ <-] _. auto. }
  destruct (match Namespace.key_file args with
            | Some path => _ | None => _ end) as [e0|ident].
  { intros [= _ _ <-] _. auto. }
  match goal with
  | |- context [load_plugin env ?s h] =>
      destruct (load_plugin env s h) as [[[u|e0] self1] h1] eqn:Hload
  end; try destruct u.
  2:{ apply load_plugin_raise in Hload. subst h1. intros [= _ _ <-] _. auto. }
  apply load_plugin_ok in Hload. destruct Hload as (fmt & largs & ->).
  assert (Hlog : count_events is_session_opened (h ++ [Log INFO fmt largs]) =
                 count_events is_session_opened h /\
                 posted (h ++ [Log INFO fmt largs]) = posted h).
  { rewrite count_events_app, posted_app. cbn. rewrite app_nil_r. split; [lia|reflexivity]. }
  destruct (negb (add_signal_handler loop SIGINT)).
  { intros [= <- _ <-] _. destruct Hlog. eauto. }
  destruct (negb (add_signal_handler loop SIGTERM)).
  { intros [= <- _ <-] _. destruct Hlog. eauto. }
  destruct (start env fuel self1 _) as [[[[r|e1]|] s1] hh1]; try discriminate.
  intros [= <- _ _] Hnot. exfalso. exact (Hnot e1 eq_refl).
Qed.

End CliFacts.

(* ===================================================================== *)
(** ** The further theorems at concrete inputs *)
(* ===================================================================== *)

(** [start_closes_its_session] on the run in which the plugin raises and
    the node cannot be reached. *)
Lemma start_closes_its_session_witness :
  is_Some (_plugin faulty_runner) /\
  count_events is_session_opened (snd faulty_run) = 1%nat /\
  count_events is_session_closed (snd faulty_run) = 1%nat /\
  last (snd faulty_run) = Some SessionClosed /\
  _session (snd (fst faulty_run)) = Some {| closed := true |}.
Proof.
  assert (Hp : is_Some (_plugin faulty_runner)) by (cbn; eauto).
  assert (Hs : start (quiet_env _ TransportFault) 4 faulty_runner [] =
               (Some (returned_of (fst (fst faulty_run))), snd (fst faulty_run),
                snd faulty_run)) by (vm_compute; reflexivity).
  split; [exact Hp|].
  exact (start_closes_its_session _ _ _ _ _ _ _ Hp Hs).
Defined.

(** [start_posts_once_per_improvement] on the bounded run of the tests:
    two improvements, two calls. *)
Lemma start_posts_once_per_improvement_witness :
  _improvements_found (snd (fst bounded_run)) = 2 /\
  Z.of_nat (length (posted (snd bounded_run))) - Z.of_nat (length (posted [])) =
    _improvements_found (snd (fst bounded_run)) - _improvements_found bounded_runner.
Proof.
  split; [vm_compute; reflexivity|].
  apply (start_posts_once_per_improvement (quiet_env _ (Response 200)) 4
           bounded_runner [] (fst (fst bounded_run))).
  vm_compute. reflexivity.
Defined.

(** [start_sleeps_once_per_step] on the run in which the first step
    fails and the second is accepted: two steps, two sleeps. *)
Lemma start_sleeps_once_per_step_witness :
  _steps_completed (snd (fst faulty_run)) = 2 /\
  Z.of_nat (count_events is_sleep (snd faulty_run)) - Z.of_nat (count_events is_sleep []) =
    _steps_completed (snd (fst faulty_run)) - _steps_completed faulty_runner.
Proof.
  split; [vm_compute; reflexivity|].
  apply (start_sleeps_once_per_step (quiet_env _ TransportFault) 4
           faulty_runner [] (fst (fst faulty_run))).
  vm_compute. reflexivity.
Defined.

(** [stop_before_start_is_lost] on the bounded runner of the tests. *)
Lemma stop_before_start_is_lost_witness :
  is_Some (_plugin bounded_runner) /\
  start (quiet_env _ (Response 200)) 4 (stop bounded_runner) [] = bounded_run.
Proof.
  assert (Hp : is_Some (_plugin bounded_runner)) by (cbn; eauto).
  split; [exact Hp|].
  exact (stop_before_start_is_lost (quiet_env _ (Response 200)) 4 bounded_runner [] Hp).
Defined.


(** [run_single_step_frame] on the first step of the tests. *)
Lemma run_single_step_frame_witness :
  let env := quiet_env MockOptimizer.t (Response 200) in
  let self := make_runner (Response 200) in
  let self' := fst (after_first_step (Response 200)) in
  _improvements_found self' = 1 /\
  config self' = config self /\ identity self' = identity self /\
  _session self' = _session self /\ _running self' = _running self /\
  _steps_completed self' = _steps_completed self.
Proof.
  cbv zeta. split; [vm_compute; reflexivity|].
  apply (run_single_step_frame (quiet_env MockOptimizer.t (Response 200))
           (make_runner (Response 200)) []
           (fst (fst (run_single_step (quiet_env _ (Response 200))
                        (make_runner (Response 200)) [])))
           (fst (after_first_step (Response 200)))
           (snd (after_first_step (Response 200)))).
  vm_compute. reflexivity.
Defined.

(** [no_open_session_no_request] on the first step of the tests: the
    candidate is accepted, nothing is sent. *)
Lemma no_open_session_no_request_witness :
  let self := make_runner (Response 200) in
  session_is_open self = false /\
  _improvements_found (fst (after_first_step (Response 200))) = 1 /\
  posted (snd (after_first_step (Response 200))) = posted [].
Proof.
  cbv zeta. split; [reflexivity|]. split; [vm_compute; reflexivity|].
  apply (no_open_session_no_request (quiet_env MockOptimizer.t (Response 200))
           (make_runner (Response 200)) []
           (fst (fst (run_single_step (quiet_env _ (Response 200))
                        (make_runner (Response 200)) [])))
           (fst (after_first_step (Response 200)))
           (snd (after_first_step (Response 200)))).
  - reflexivity.
  - vm_compute. reflexivity.
Defined.

(** [finished_runner_sends_nothing]: a third step of the tests' plugin,
    after the bounded run has returned, is accepted and not announced. *)
Lemma finished_runner_sends_nothing_witness :
  let env := quiet_env MockOptimizer.t (Response 200) in
  let third := run_single_step env (snd (fst bounded_run)) (snd bounded_run) in
  _improvements_found (snd (fst third)) = 3 /\
  posted (snd third) = posted (snd bounded_run).
Proof.
  cbv zeta. split; [vm_compute; reflexivity|].
  apply (finished_runner_sends_nothing (quiet_env MockOptimizer.t (Response 200)) 4
           bounded_runner [] (returned_of (fst (fst bounded_run)))
           (snd (fst bounded_run)) (snd bounded_run)
           (fst (fst (run_single_step (quiet_env _ (Response 200))
                        (snd (fst bounded_run)) (snd bounded_run))))
           (snd (fst (run_single_step (quiet_env _ (Response 200))
                        (snd (fst bounded_run)) (snd bounded_run))))).
  - cbn. eauto.
  - vm_compute. reflexivity.
  - vm_compute. reflexivity.
Defined.


(** [present_false_value_is_lower_is_better] on metadata that hold
    [None] under the key: 0.55 against the best 0.5 is rejected. *)
Lemma present_false_value_is_lower_is_better_witness :
  let plugin := ScriptedOptimizer.mk [] {[ "higher_is_better" := PyNone ]} in
  rejects plugin (Some F64.lit_0_5) F64.lit_0_55 = negb (F64.lt F64.lit_0_55 F64.lit_0_5) /\
  rejects plugin (Some F64.lit_0_5) F64.lit_0_55 = true.
Proof.
  cbv zeta. split; [|vm_compute; reflexivity].
  apply (present_false_value_is_lower_is_better
           (ScriptedOptimizer.mk [] {[ "higher_is_better" := PyNone ]}) PyNone);
    reflexivity.
Defined.

(** [reached_bound_runs_no_step] on a second [start] of the bounded
    runner of the tests. *)
Lemma reached_bound_runs_no_step_witness :
  let env := quiet_env MockOptimizer.t (Response 200) in
  let self := snd (fst bounded_run) in
  _steps_completed self = 2 /\
  exists self',
    start env 1 self (snd bounded_run) =
      (Some (Ok tt), self',
       snd bounded_run ++
         [SessionOpened F64.lit_30_0;
          Log INFO "Optimizer starting: domain=%s, node=%s"
            [PyStr (OptimizerConfig.domain_id (config self));
             PyStr (OptimizerConfig.node_endpoint (config self))];
          Log INFO "Max steps reached (%d)" [PyInt 2];
          SessionClosed]) /\
    _plugin self' = _plugin self /\
    _steps_completed self' = _steps_completed self /\
    _improvements_found self' = _improvements_found self /\
    _current_best_params self' = _current_best_params self /\
    _current_best_performance self' = _current_best_performance self.
Proof.
  cbv zeta. split; [vm_compute; reflexivity|].
  apply (reached_bound_runs_no_step (quiet_env MockOptimizer.t (Response 200)) 0
           (snd (fst bounded_run)) (snd bounded_run) 2).
  - vm_compute. reflexivity.
  - lia.
  - vm_compute. discriminate.
  - vm_compute. eauto.
Defined.


(** [announcement_envelope] on the first step of the tests inside a
    running loop. *)
Lemma announcement_envelope_witness :
  let env := quiet_env MockOptimizer.t (Response 200) in
  let self := make_open_runner (Response 200) in
  let run := _optimization_step env self [] in
  let o := optimae_of (fst (fst run)) in
  session_is_open self = true /\
  exists body rest,
    let url := "http://" +:+ OptimizerConfig.node_endpoint (config self) +:+ "/message" in
    snd run = [] ++ Post url body (node_reply env [] url body) :: rest /\
    posted rest = [] /\
    Message.msg_type body = OPTIMAE_ANNOUNCEMENT /\
    Message.sender_id body = peer_id (identity self) /\
    Optimae.optimizer_id o = peer_id (identity self) /\
    Optimae.domain_id o = OptimizerConfig.domain_id (config self) /\
    OptimaeAnnouncement.domain_id (Message.payload body) = Optimae.domain_id o /\
    OptimaeAnnouncement.optimae_id (Message.payload body) = Optimae.id o /\
    OptimaeAnnouncement.parameters (Message.payload body) = Optimae.parameters o /\
    OptimaeAnnouncement.reported_performance (Message.payload body)
      = Optimae.reported_performance o.
Proof.
  cbv zeta. split; [reflexivity|].
  apply (announcement_envelope (quiet_env MockOptimizer.t (Response 200))
           (make_open_runner (Response 200)) []
           (optimae_of (fst (fst (_optimization_step (quiet_env _ (Response 200))
                                    (make_open_runner (Response 200)) []))))
           (snd (fst (_optimization_step (quiet_env _ (Response 200))
                        (make_open_runner (Response 200)) [])))).
  - reflexivity.
  - vm_compute. reflexivity.
Defined.

(** [operations_never_go_back] on the first step of the tests. *)
Lemma operations_never_go_back_witness :
  let env := quiet_env MockOptimizer.t (Response 200) in
  let self := make_runner (Response 200) in
  let self' := fst (after_first_step (Response 200)) in
  operation env self self' /\
  (is_Some (_current_best_params self) -> is_Some (_current_best_params self')) /\
  (is_Some (_current_best_performance self) ->
   is_Some (_current_best_performance self')) /\
  _steps_completed self <= _steps_completed self' /\
  _improvements_found self <= _improvements_found self'.
Proof.
  cbv zeta.
  assert (Hop : operation (quiet_env MockOptimizer.t (Response 200))
                  (make_runner (Response 200)) (fst (after_first_step (Response 200)))).
  { apply (op_run_single_step _ (make_runner (Response 200)) []
             (fst (fst (run_single_step (quiet_env _ (Response 200))
                          (make_runner (Response 200)) [])))
             _ (snd (after_first_step (Response 200)))).
    vm_compute. reflexivity. }
  split; [exact Hop|].
  exact (operations_never_go_back _ _ _ Hop).
Defined.

(** [run_optimizer_setup_failure] on a plugin name that is not
    registered. *)
Lemma run_optimizer_setup_failure_witness :
  cli_run unix_loop "unknown" =
    (CliRaised (LoadError (PluginError "unknown")),
     snd (fst (cli_run unix_loop "unknown")), snd (cli_run unix_loop "unknown")) /\
  count_events is_session_opened (snd (cli_run unix_loop "unknown")) =
    count_events is_session_opened [] /\
  posted (snd (cli_run unix_loop "unknown")) = posted [] /\
  ((exists sig, LoadError (PluginError "unknown") = SignalError sig) \/
   snd (cli_run unix_loop "unknown") = []).
Proof.
  assert (Hrun : cli_run unix_loop "unknown" =
                 (CliRaised (LoadError (PluginError "unknown")),
                  snd (fst (cli_run unix_loop "unknown")),
                  snd (cli_run unix_loop "unknown")))
    by (vm_compute; reflexivity).
  split; [exact Hrun|].
  apply (run_optimizer_setup_failure no_files unix_loop
           (registry_env "mock" MockOptimizer.new (Response 200)) 3
           (cli_args "unknown") [] _ _ _ Hrun).
  intros e0. discriminate.
Defined.

(** [step_accepts_number_iff_strict] on the second step of the tests:
    0.60 against the best 0.55. *)
Lemma step_accepts_number_iff_strict_witness :
  let env := quiet_env MockOptimizer.t (Response 200) in
  let self := fst (after_first_step (Response 200)) in
  let h := snd (after_first_step (Response 200)) in
  _current_best_performance self = Some F64.lit_0_55 /\
  ((exists o self' h', _optimization_step env self h = (Ok (Some o), self', h')) <->
   (if direction (MockOptimizer.mk 2 false) then F64.gt F64.lit_0_60 F64.lit_0_55
    else F64.lt F64.lit_0_60 F64.lit_0_55) = true).
Proof.
  cbv zeta. split; [vm_compute; reflexivity|].
  apply (step_accepts_number_iff_strict (quiet_env MockOptimizer.t (Response 200))
           (fst (after_first_step (Response 200))) (snd (after_first_step (Response 200)))
           (MockOptimizer.mk 1 false) (MockOptimizer.mk 2 false)
           {[ "w" := PyInt 2;
              "bias" := PyFloat (F64.mul F64.lit_0_1 (F64.of_int 2)) ]}
           F64.lit_0_60 F64.lit_0_55).
  - vm_compute. reflexivity.
  - vm_compute. reflexivity.
  - vm_compute. reflexivity.
  - reflexivity.
  - reflexivity.
Defined.

(** [equal_is_rejected] on the two zeros of binary64: -0.0 against the
    best 0.0 compares equal and is rejected. *)
Lemma equal_is_rejected_witness :
  let plugin := ScriptedOptimizer.mk [] {[ "higher_is_better" := PyBool false ]} in
  SFcompare (S754_zero true) F64.zero = Some Eq /\
  rejects plugin (Some F64.zero) (S754_zero true) = true.
Proof.
  cbv zeta. split; [reflexivity|].
  apply (equal_is_rejected
           (ScriptedOptimizer.mk [] {[ "higher_is_better" := PyBool false ]})
           F64.zero (S754_zero true)).
  reflexivity.
Defined.

(** On an event loop without support for signals, [run_optimizer] raises
    from the first [add_signal_handler], after the plugin was loaded and
    before [start]: one record is logged, no session is opened. *)
Example run_optimizer_without_signals :
  fst (fst (cli_run loop_without_signals "mock")) = CliRaised (SignalError SIGINT) /\
  snd (cli_run loop_without_signals "mock") =
    [Log INFO "Loaded optimization plugin: %s for domain %s"
       [PyStr "mock"; PyStr "test-domain"]].
Proof. vm_compute. split; reflexivity. Qed.
